(** * feedder-mcp: the Zotero export adapter (src/adapters/zotero.py)

    A shallow embedding of [ZoteroAdapter]: the deduplicating export loop,
    the create-result interpreter, the remote record coercer, the listing
    discovery of the index loader and collection resolution.

    Conventions of the embedding.
    - Python values that cross the adapter's boundary (create results, remote
      items, outgoing payloads) are terms of [PyVal]: None, bool, int, str,
      list, dict with string keys, and objects seen through what the code
      reads of them (a [model_dump]/[dict] conversion and attributes).
    - A dict is an association list in insertion order, read through the
      first binding of each key ([dict_lookup], [dict_items]).
    - Strings are ASCII text; [strip], [lower] and [casefold] act on ASCII.
    - [await] is sequential here: every remote call is a step of a state and
      exception monad over the [Machine] (the outside world and the trace of
      remote calls made so far).
    - Exceptions are instances of Python's [Exception], the class every
      handler of the adapter catches. *)

From Stdlib Require Import ZArith String Ascii List Bool Lia DecimalString.
From stdpp Require Import gmap strings list fin_maps.

Import ListNotations.
Local Open Scope string_scope.
Local Open Scope Z_scope.

(** ** Python values *)

#[warnings="-register-all"]
Inductive PyVal : Type :=
| PNone
| PBool (b : bool)
| PInt (z : Z)
| PStr (s : string)
| PList (l : list PyVal)
| PDict (d : list (string * PyVal))
| PObj (model_dump dict_method : option PyVal) (attrs : list (string * PyVal)).

Abbreviation PyDict := (list (string * PyVal)).

(** [isinstance(v, dict)], [isinstance(v, list)], [isinstance(v, str)]. *)
Definition is_dict (v : PyVal) : bool :=
  match v with PDict _ => true | _ => false end.

Definition is_list (v : PyVal) : bool :=
  match v with PList _ => true | _ => false end.

Definition is_str (v : PyVal) : bool :=
  match v with PStr _ => true | _ => false end.

(** [isinstance(v, int)]: [bool] is a subclass of [int]. *)
Definition as_int (v : PyVal) : option Z :=
  match v with
  | PInt z => Some z
  | PBool b => Some (Z.b2z b)
  | _ => None
  end.

(** Truth value of [v] in a condition. *)
Definition truthy (v : PyVal) : bool :=
  match v with
  | PNone => false
  | PBool b => b
  | PInt z => negb (z =? 0)
  | PStr s => negb (String.eqb s "")
  | PList l => match l with [] => false | _ => true end
  | PDict d => match d with [] => false | _ => true end
  | PObj _ _ _ => true
  end.

(** [a or b]. *)
Definition py_or (a b : PyVal) : PyVal := if truthy a then a else b.

Definition is_none (v : PyVal) : bool :=
  match v with PNone => true | _ => false end.

(** ** Dicts *)

Fixpoint dict_lookup (d : PyDict) (k : string) : option PyVal :=
  match d with
  | [] => None
  | (k', v) :: rest => if String.eqb k' k then Some v else dict_lookup rest k
  end.

(** [k in d] *)
Definition dict_mem (d : PyDict) (k : string) : bool :=
  match dict_lookup d k with Some _ => true | None => false end.

(** [d.get(k)] *)
Definition dict_get (d : PyDict) (k : string) : PyVal :=
  match dict_lookup d k with Some v => v | None => PNone end.

(** [d.items()]: one binding per key, in insertion order. *)
Fixpoint dict_items (d : PyDict) : PyDict :=
  match d with
  | [] => []
  | (k, v) :: rest =>
      (k, v) :: List.filter (fun kv => negb (String.eqb (fst kv) k)) (dict_items rest)
  end.

(** [len(d)] *)
Definition dict_len (d : PyDict) : nat := length (dict_items d).

(** [d[k] = v]: overwrite in place, or append a new key. *)
Fixpoint dict_set (k : string) (v : PyVal) (d : PyDict) : PyDict :=
  match d with
  | [] => [(k, v)]
  | (k', v') :: rest =>
      if String.eqb k' k then (k', v) :: rest else (k', v') :: dict_set k v rest
  end.

(** [d.update(src)] *)
Definition dict_update (d src : PyDict) : PyDict :=
  fold_left (fun acc kv => dict_set (fst kv) (snd kv) acc) (dict_items src) d.

(** [d.values()] *)
Definition dict_values (d : PyDict) : list PyVal := map snd (dict_items d).

(** [getattr(o, k, None)] on what the model keeps of an object. *)
Definition attr_get (attrs : list (string * PyVal)) (k : string) : PyVal :=
  dict_get attrs k.

(** ** Strings *)

(** [str.isspace] on one ASCII character. *)
Definition is_space (c : ascii) : bool :=
  let n := nat_of_ascii c in
  (((9 <=? n) && (n <=? 13)) || ((28 <=? n) && (n <=? 32)))%nat.

Definition is_upper (c : ascii) : bool :=
  let n := nat_of_ascii c in ((65 <=? n) && (n <=? 90))%nat.

Definition is_lower (c : ascii) : bool :=
  let n := nat_of_ascii c in ((97 <=? n) && (n <=? 122))%nat.

Definition is_digit (c : ascii) : bool :=
  let n := nat_of_ascii c in ((48 <=? n) && (n <=? 57))%nat.

(** The character class [[A-Za-z0-9]]. *)
Definition is_alnum (c : ascii) : bool :=
  is_upper c || is_lower c || is_digit c.

Definition lower_char (c : ascii) : ascii :=
  if is_upper c then ascii_of_nat (nat_of_ascii c + 32) else c.

Fixpoint lstrip_chars (l : list ascii) : list ascii :=
  match l with
  | [] => []
  | c :: rest => if is_space c then lstrip_chars rest else l
  end.

Definition strip_chars (l : list ascii) : list ascii :=
  rev (lstrip_chars (rev (lstrip_chars l))).

(** [s.strip()] *)
Definition strip (s : string) : string :=
  string_of_list_ascii (strip_chars (list_ascii_of_string s)).

(** [s.lower()] *)
Definition lower (s : string) : string :=
  string_of_list_ascii (map lower_char (list_ascii_of_string s)).

(** [s.casefold()] *)
Definition casefold (s : string) : string := lower s.

Fixpoint starts_with (p l : list ascii) : bool :=
  match p, l with
  | [], _ => true
  | _ :: _, [] => false
  | a :: p', b :: l' => Ascii.eqb a b && starts_with p' l'
  end.

(** [s.replace(old, new)] for a non-empty [old]: leftmost, non-overlapping.
    [skip] counts the characters of a match still to be dropped. *)
Fixpoint replace_chars (old new l : list ascii) (skip : nat) : list ascii :=
  match l with
  | [] => []
  | c :: rest =>
      match skip with
      | S k => replace_chars old new rest k
      | O =>
          if starts_with old l
          then new ++ replace_chars old new rest (length old - 1)
          else c :: replace_chars old new rest 0
      end
  end.

Definition replace (s old new : string) : string :=
  string_of_list_ascii
    (replace_chars (list_ascii_of_string old) (list_ascii_of_string new)
       (list_ascii_of_string s) 0).

(** [s.split(sep)] for a one-character separator. *)
Fixpoint split_chars (sep : ascii) (l : list ascii) : list (list ascii) :=
  match l with
  | [] => [[]]
  | c :: rest =>
      if Ascii.eqb c sep then [] :: split_chars sep rest
      else match split_chars sep rest with
           | h :: t => (c :: h) :: t
           | [] => [[c]]
           end
  end.

Definition split (s : string) (sep : ascii) : list string :=
  map string_of_list_ascii (split_chars sep (list_ascii_of_string s)).

(** [sep.join(parts)] *)
Fixpoint join (sep : string) (parts : list string) : string :=
  match parts with
  | [] => ""
  | [p] => p
  | p :: rest => p ++ sep ++ join sep rest
  end.

(** [str(z)] for an int. *)
Definition str_of_Z (z : Z) : string := NilZero.string_of_int (Z.to_int z).

(** [list(dict.fromkeys(l))]: drop repeated strings, keep first occurrences. *)
Fixpoint dedup_strings (l : list string) : list string :=
  match l with
  | [] => []
  | s :: rest => s :: List.filter (fun t => negb (String.eqb t s)) (dedup_strings rest)
  end.

(** ** Exceptions *)

Inductive ExnClass : Type :=
| TypeError
| ValueError
| RuntimeError
| ImportError
| OtherError (name : string).

(** An exception: its class and [str(e)]. *)
Record Exn : Type := { exn_class : ExnClass; exn_msg : string }.

Definition is_type_error (e : Exn) : bool :=
  match exn_class e with TypeError => true | _ => false end.

Inductive Outcome (A : Type) : Type :=
| Raised (e : Exn)
| Returned (a : A).

Arguments Raised {A} e.
Arguments Returned {A} a.

(** ** The local paper record (PaperItem) *)

Record Date : Type := { d_year : nat; d_month : nat; d_day : nat }.

Definition pad_left (width : nat) (s : string) : string :=
  string_of_list_ascii (repeat "0"%char (width - String.length s)) ++ s.

(** [d.isoformat()] *)
Definition isoformat (d : Date) : string :=
  pad_left 4 (str_of_Z (Z.of_nat (d_year d))) ++ "-" ++
  pad_left 2 (str_of_Z (Z.of_nat (d_month d))) ++ "-" ++
  pad_left 2 (str_of_Z (Z.of_nat (d_day d))).

Record PaperItem : Type := {
  title : string;
  source : string;
  source_type : string;
  authors : list string;
  abstract : string;
  published_date : option Date;
  doi : option string;
  url : option string;
  pdf_url : option string;
  publication_title : option string;
  journal_abbreviation : option string;
  publisher : option string;
  place : option string;
  volume : option string;
  issue : option string;
  pages : option string;
  section : option string;
  part_number : option string;
  part_title : option string;
  series : option string;
  series_title : option string;
  series_text : option string;
  citation_key : option string;
  access_date : option Date;
  pmid : option string;
  pmcid : option string;
  issn : option string;
  archive : option string;
  archive_location : option string;
  short_title : option string;
  language : option string;
  library_catalog : option string;
  call_number : option string;
  rights : option string;
  item_type : string
}.

(** An identity key: the pair (kind, normalized value). *)
Abbreviation IdentityKey := (string * string)%type.

(** ** What the adapter takes from its surroundings *)

(** The host: the world outside the adapter (the remote library behind the
    zotero-mcp client, the clock), and Python's [str()] on lists, dicts and
    objects, which the adapter only ever copies into messages. *)
Class Host : Type := {
  World : Type;
  zotero_available : bool;          (* did [import zotero_mcp] succeed *)
  today : World -> string;          (* datetime.now().strftime("%Y-%m-%d") *)
  py_repr : PyVal -> string
}.

(** The two functions the adapter imports from [src.utils.dedup]. Each may
    raise. *)
Class Dedup : Type := {
  paper_export_identity_keys : PaperItem -> Outcome (list IdentityKey);
  zotero_data_identity_keys : PyVal -> Outcome (list IdentityKey)
}.

(** [str(v)] *)
Definition py_str `{Host} (v : PyVal) : string :=
  match v with
  | PNone => "None"
  | PBool true => "True"
  | PBool false => "False"
  | PInt z => str_of_Z z
  | PStr s => s
  | _ => py_repr v
  end.

(** ** Create-result interpreter *)

(** The local helper [_count] of [_extract_create_result_counts]. *)
Definition _count (value : PyVal) : Z :=
  match value with
  | PBool b => Z.max 0 (Z.b2z b)
  | PInt z => Z.max 0 z
  | PList l => Z.of_nat (length l)
  | PDict d => Z.of_nat (dict_len d)
  | _ => 0
  end.

(** [for key in keys: value = result.get(key);
     if isinstance(value, int) and value > 0: n = value; break] *)
Fixpoint first_positive (result : PyDict) (keys : list string) (n : Z) : Z :=
  match keys with
  | [] => n
  | key :: rest =>
      match as_int (dict_get result key) with
      | Some value => if 0 <? value then value else first_positive result rest n
      | None => first_positive result rest n
      end
  end.

Definition _extract_create_result_counts (result : PyVal) : Z * Z * Z :=
  match result with
  | PDict result =>
      let created := dict_get result "created" in
      let skipped := dict_get result "skipped_duplicates" in
      let failed := dict_get result "failed" in
      let failures := dict_get result "failures" in
      let created_n := _count created in
      let skipped_n := _count skipped in
      let failed_n := _count failed in
      let failed_n := if failed_n =? 0 then _count failures else failed_n in
      if (created_n =? 0) && (skipped_n =? 0) && (failed_n =? 0) then
        let created_n :=
          first_positive result
            ["created_count"; "success_count"; "inserted_count"] created_n in
        let skipped_n :=
          first_positive result ["skipped_count"; "duplicate_count"] skipped_n in
        let failed_n :=
          first_positive result ["failed_count"; "error_count"] failed_n in
        (created_n, skipped_n, failed_n)
      else (created_n, skipped_n, failed_n)
  | _ => (0, 0, 0)
  end.

(** The fields of a create result that [_extract_create_result_counts]
    reads: the four primary ones and the seven named alternates. *)
Definition recognized_count_fields : list string :=
  ["created"; "skipped_duplicates"; "failed"; "failures";
   "created_count"; "success_count"; "inserted_count";
   "skipped_count"; "duplicate_count"; "failed_count"; "error_count"].

(** Messages of the entries of a [failed] mapping. *)
Definition failed_map_message `{Host} (detail : PyVal) : string :=
  match detail with
  | PDict d =>
      let msg := py_or (dict_get d "message") (dict_get d "error") in
      if truthy msg then py_str msg else py_str detail
  | _ => py_str detail
  end.

(** Messages of the entries of a [failures] sequence. *)
Definition failures_list_message `{Host} (detail : PyVal) : list string :=
  match detail with
  | PDict d =>
      let msg := py_or (dict_get d "message") (dict_get d "error") in
      if truthy msg then [py_str msg] else []
  | _ => if truthy detail then [py_str detail] else []
  end.

Definition generic_failure_message (failed_n : Z) : string :=
  "create_item reported " ++ str_of_Z failed_n ++ " failed item(s)".

Definition _summarize_create_failures `{Host} (result : PyVal) (failed_n : Z)
  : string :=
  match result with
  | PDict result =>
      let from_failures :=
        match dict_get result "failures" with
        | PList ((_ :: _) as failures) =>
            match flat_map failures_list_message failures with
            | [] => generic_failure_message failed_n
            | messages => join "; " (dedup_strings messages)
            end
        | _ => generic_failure_message failed_n
        end in
      match dict_get result "failed" with
      | PDict ((_ :: _) as failed) =>
          match map failed_map_message (dict_values failed) with
          | [] => from_failures
          | messages => join "; " (dedup_strings messages)
          end
      | _ => from_failures
      end
  | _ => generic_failure_message failed_n
  end.

(** ** Remote record coercer *)

Definition author_entry (name : string) : PyVal :=
  PDict [("creatorType", PStr "author"); ("name", PStr name)].

Definition _coerce_creators (value : PyVal) : list PyVal :=
  match value with
  | PList entries =>
      flat_map
        (fun entry =>
           match entry with
           | PDict d =>
               let name :=
                 py_or (py_or (dict_get d "name") (dict_get d "lastName"))
                       (dict_get d "firstName") in
               if truthy name then [entry] else []
           | PStr s =>
               let name := strip s in
               if String.eqb name "" then [] else [author_entry name]
           | _ => []
           end)
        entries
  | PStr s =>
      let normalized := replace s " and " ";" in
      flat_map
        (fun chunk =>
           let name := strip chunk in
           if String.eqb name "" then [] else [author_entry name])
        (split normalized ";"%char)
  | _ => []
  end.

(** [if value and key not in mapped: mapped[key] = value] *)
Definition set_if_new (key : string) (value : PyVal) (mapped : PyDict) : PyDict :=
  if truthy value && negb (dict_mem mapped key)
  then dict_set key value mapped else mapped.

(** The [date_value] of [_coerce_flat_item_dict] before it is stored. *)
Definition flat_date_value `{Host} (item : PyDict) : PyVal :=
  let date_value := dict_get item "date" in
  if truthy date_value then date_value
  else
    let year := dict_get item "year" in
    if negb (is_none year) && negb (String.eqb (strip (py_str year)) "")
    then PStr (py_str year)
    else date_value.

(** The straight-line part of [_coerce_flat_item_dict] that copies the
    top-level title, DOI, date, creators and url into [mapped]. *)
Definition merge_top_level `{Host} (item mapped : PyDict) : PyDict :=
  let mapped := set_if_new "title" (dict_get item "title") mapped in
  let doi := py_or (dict_get item "DOI") (dict_get item "doi") in
  let mapped := set_if_new "DOI" doi mapped in
  let date_value := flat_date_value item in
  let mapped :=
    if truthy date_value && negb (dict_mem mapped "date")
    then dict_set "date" (PStr (py_str date_value)) mapped else mapped in
  let creators_value := dict_get item "creators" in
  let creators_value :=
    if truthy creators_value then creators_value
    else dict_get item "authors" in
  let creators := _coerce_creators creators_value in
  let mapped := set_if_new "creators" (PList creators) mapped in
  set_if_new "url" (dict_get item "url") mapped.

Definition _coerce_flat_item_dict `{Host} (item : PyDict) : PyDict :=
  match dict_get item "data" with
  | PDict _ => item
  | _ =>
      let raw_data := dict_get item "raw_data" in
      let nested :=
        match raw_data with PDict rd => dict_get rd "data" | _ => PNone end in
      match raw_data, nested with
      | PDict rd, PDict _ => rd
      | _, _ =>
          let mapped : PyDict :=
            match raw_data with PDict rd => dict_update [] rd | _ => [] end in
          let mapped := merge_top_level item mapped in
          match mapped with
          | [] => item
          | _ => [("data", PDict mapped)]
          end
      end
  end.

(** The attribute names read off an arbitrary object. *)
Definition item_attr_allowlist : list string :=
  ["raw_data"; "DOI"; "doi"; "title"; "date"; "year"; "creators"; "authors";
   "url"].

Definition _coerce_item_to_dict `{Host} (item : PyVal) : option PyDict :=
  match item with
  | PDict d => Some (_coerce_flat_item_dict d)
  | PObj model_dump dict_method attrs =>
      let dumped :=
        match model_dump with
        | Some r => r
        | None => match dict_method with Some r => r | None => PNone end
        end in
      match dumped with
      | PDict d => Some (_coerce_flat_item_dict d)
      | _ =>
          let found :=
            flat_map
              (fun key =>
                 let value := attr_get attrs key in
                 if is_none value then [] else [(key, value)])
              item_attr_allowlist in
          match found with
          | [] => None
          | _ => Some (_coerce_flat_item_dict found)
          end
      end
  | PStr _ =>
      (* of the allowlist a str has just [title], the method [str.title] *)
      Some (_coerce_flat_item_dict [("title", PObj None None [])])
  | _ => None
  end.

(** The inner [_normalize_list] of [_normalize_item_list_result]. *)
Definition _normalize_list `{Host} (values : list PyVal) : list PyDict :=
  flat_map
    (fun value =>
       match _coerce_item_to_dict value with Some item => [item] | None => [] end)
    values.

(** [for key in ("items", "results", "data"): ...] over a dict result: the
    first key holding a list, or a dict whose [items] is a list. *)
Fixpoint first_item_list (result : PyDict) (keys : list string)
  : option (list PyVal) :=
  match keys with
  | [] => None
  | key :: rest =>
      match dict_get result key with
      | PList value => Some value
      | PDict value =>
          match dict_get value "items" with
          | PList nested_items => Some nested_items
          | _ => first_item_list result rest
          end
      | _ => first_item_list result rest
      end
  end.

Definition _normalize_item_list_result `{Host} (result : PyVal)
  : option (list PyDict) :=
  match result with
  | PList values => Some (_normalize_list values)
  | PDict d =>
      match first_item_list d ["items"; "results"; "data"] with
      | Some values => Some (_normalize_list values)
      | None => Some [_coerce_flat_item_dict d]
      end
  | _ => None
  end.

(** ** The remote client and the machine *)

(** [inspect.signature(method)]: the declared parameter names, and whether
    one of them is a [**kwargs]. *)
Record Signature : Type := { parameters : list string; var_keyword : bool }.

(** A callable of the zotero-mcp client: its signature (taking it may raise)
    and what calling it with keyword arguments, awaited if need be, does to
    the world. *)
Record Method `{Host} : Type := {
  signature : Outcome Signature;
  call : list (string * PyVal) -> World -> World * Outcome PyVal
}.

(** A target of the listing discovery: [getattr(target, name, None)] where
    that is callable. *)
Record Target `{Host} : Type := {
  class_name : string;
  getattr_callable : string -> option Method
}.

(** [self]. [create_item] is [self._item_service.create_item]. *)
Record ZoteroAdapter `{Host} : Type := {
  _item_service : Target;
  _api_client : Target;
  create_item : PyDict -> World -> World * Outcome PyVal
}.

(** Remote calls, as the trace records them. *)
Inductive Event : Type :=
| EvCreateItem (zotero_item : PyDict)
| EvInvoke (call_kwargs : list (string * PyVal)).

Record Machine `{Host} : Type := { world : World; trace : list Event }.

(** State and exception monad: the state reached when an exception is raised
    is kept, as Python keeps the effects that preceded a raise. *)
Definition ST (S A : Type) : Type := S -> S * Outcome A.

Definition ret {S A : Type} (a : A) : ST S A := fun s => (s, Returned a).

Definition raise {S A : Type} (e : Exn) : ST S A := fun s => (s, Raised e).

Definition bind {S A B : Type} (c : ST S A) (k : A -> ST S B) : ST S B :=
  fun s =>
    match c s with
    | (s', Returned a) => k a s'
    | (s', Raised e) => (s', Raised e)
    end.

(** [try: c  except Exception as exc: handler exc] *)
Definition try_except {S A : Type} (c : ST S A) (handler : Exn -> ST S A)
  : ST S A :=
  fun s =>
    match c s with
    | (s', Raised exc) => handler exc s'
    | (s', Returned a) => (s', Returned a)
    end.

Definition lift_outcome {S A : Type} (o : Outcome A) : ST S A := fun s => (s, o).

Definition modify {S : Type} (f : S -> S) : ST S unit :=
  fun s => (f s, Returned tt).

Notation "x <- c ;; k" := (bind c (fun x => k))
  (at level 100, c at next level, right associativity).
Notation "c ;;; k" := (bind c (fun _ => k))
  (at level 100, right associativity).

Definition invoke_remote `{Host} (method : Method)
    (call_kwargs : list (string * PyVal)) : ST Machine PyVal :=
  fun m =>
    let (w, result) := call method call_kwargs (world m) in
    ({| world := w; trace := (trace m ++ [EvInvoke call_kwargs])%list |}, result).

Definition string_in (s : string) (l : list string) : bool :=
  existsb (String.eqb s) l.

Definition _method_accepts_param `{Host} (method : Method) (param_name : string)
  : ST Machine bool :=
  sig <- lift_outcome (signature method) ;;
  ret (string_in param_name (parameters sig)).

Definition _invoke_method `{Host} (method : Method)
    (kwargs : list (string * PyVal)) : ST Machine PyVal :=
  sig <- lift_outcome (signature method) ;;
  let supports_var_kwargs := var_keyword sig in
  let call_kwargs :=
    List.filter
      (fun kv => supports_var_kwargs || string_in (fst kv) (parameters sig))
      kwargs in
  invoke_remote method call_kwargs.

(** ** Existing-Identity Index loader *)

Definition _ITEM_LIST_METHOD_CANDIDATES : list string :=
  ["list_items"; "get_items"; "get_all_items"; "list"].

Definition page_size : nat := 1000.
Definition max_pages : nat := 200.

(** The paging loop of [_collect_items]; [pages] is what is left of
    [range(max_pages)]. Running out of pages returns what was gathered. *)
Fixpoint collect_pages `{Host} (method : Method) (page_cursor_key : string)
    (pages : nat) (cursor : Z) (all_items : list PyDict)
  : ST Machine (option (list PyDict)) :=
  match pages with
  | O => ret (Some all_items)
  | S pages' =>
      result <-
        _invoke_method method
          [("limit", PInt (Z.of_nat page_size)); (page_cursor_key, PInt cursor)] ;;
      match _normalize_item_list_result result with
      | None => ret None
      | Some batch =>
          let all_items := (all_items ++ batch)%list in
          if (length batch <? page_size)%nat then ret (Some all_items)
          else collect_pages method page_cursor_key pages'
                 (cursor + Z.of_nat (length batch)) all_items
      end
  end.

Definition _collect_items `{Host} (method : Method)
  : ST Machine (option (list PyDict)) :=
  accepts_start <- _method_accepts_param method "start" ;;
  page_cursor_key <-
    (if accepts_start : bool then ret (Some "start")
     else accepts_offset <- _method_accepts_param method "offset" ;;
          ret (if accepts_offset : bool then Some "offset" else None)) ;;
  match page_cursor_key with
  | None =>
      result <- _invoke_method method [("limit", PInt 100000)] ;;
      ret (_normalize_item_list_result result)
  | Some page_cursor_key => collect_pages method page_cursor_key max_pages 0 []
  end.

(** The inner loop of [_list_existing_items] over the method names of one
    target; [None] when every name was passed over. A [TypeError] and any
    other exception both move on to the next name (the latter after a
    warning is logged). *)
Fixpoint try_method_names `{Host} (target : Target) (names : list string)
  : ST Machine (option (list PyDict)) :=
  match names with
  | [] => ret None
  | method_name :: rest =>
      match getattr_callable target method_name with
      | None => try_method_names target rest
      | Some method =>
          items <-
            try_except (_collect_items method)
              (fun exc => if is_type_error exc then ret None else ret None) ;;
          match items with
          | Some items => ret (Some items)
          | None => try_method_names target rest
          end
      end
  end.

Definition no_listing_method : Exn :=
  {| exn_class := RuntimeError;
     exn_msg :=
       "Unable to list existing Zotero items for deduplication. " ++
       "No compatible list/get method found on zotero-mcp client." |}.

Fixpoint try_targets `{Host} (targets : list Target) : ST Machine (list PyDict) :=
  match targets with
  | [] => raise no_listing_method
  | target :: rest =>
      items <- try_method_names target _ITEM_LIST_METHOD_CANDIDATES ;;
      match items with
      | Some items => ret items
      | None => try_targets rest
      end
  end.

Definition _list_existing_items `{Host} (self : ZoteroAdapter)
  : ST Machine (list PyDict) :=
  try_targets [_item_service self; _api_client self].

(** [for item in items: keys.update(zotero_data_identity_keys(item))] *)
Fixpoint update_keys `{Dedup} (items : list PyDict) (keys : gset IdentityKey)
  : Outcome (gset IdentityKey) :=
  match items with
  | [] => Returned keys
  | item :: rest =>
      match zotero_data_identity_keys (PDict item) with
      | Raised e => Raised e
      | Returned ks => update_keys rest (keys ∪ list_to_set ks)
      end
  end.

Definition _load_existing_identity_keys `{Host} `{Dedup} (self : ZoteroAdapter)
  : ST Machine (gset IdentityKey) :=
  items <- _list_existing_items self ;;
  lift_outcome (update_keys items ∅).

(** ** Collection resolution *)

(** [re.fullmatch(r"[A-Za-z0-9]{8}", value) is not None] *)
Definition _looks_like_collection_key (value : string) : bool :=
  (String.length value =? 8)%nat && forallb is_alnum (list_ascii_of_string value).

(** The loop of [_resolve_collection_key] over the listed collections:
    the exact match that ended it, if any, and the first case-folded match. *)
Fixpoint scan_collections (value : string) (raw_collections : list PyVal)
    (casefold_match_key : option string) : option string * option string :=
  match raw_collections with
  | [] => (None, casefold_match_key)
  | item :: rest =>
      match item with
      | PDict item =>
          let data :=
            match dict_get item "data" with PDict d => d | _ => item end in
          let name := dict_get data "name" in
          let key := py_or (dict_get item "key") (dict_get data "key") in
          match name, key with
          | PStr name, PStr key =>
              if String.eqb name value then (Some key, casefold_match_key)
              else
                scan_collections value rest
                  (match casefold_match_key with
                   | None =>
                       if String.eqb (casefold name) (casefold value)
                       then Some key else None
                   | Some k => Some k
                   end)
          | _, _ => scan_collections value rest casefold_match_key
          end
      | _ => scan_collections value rest casefold_match_key
      end
  end.

(** Truth value of an [Optional[str]]. *)
Definition nonempty (o : option string) : bool :=
  match o with Some s => negb (String.eqb s "") | None => false end.

Definition _resolve_collection_key `{Host} (self : ZoteroAdapter)
    (collection_id : option string) : ST Machine (option string) :=
  if negb (nonempty collection_id) then ret None
  else
    let value := strip (default "" collection_id) in
    if String.eqb value "" then ret None
    else if _looks_like_collection_key value then ret (Some value)
    else
      match getattr_callable (_api_client self) "get_collections" with
      | None => ret (Some value)
      | Some get_collections =>
          raw_collections <-
            try_except
              (r <- _invoke_method get_collections [] ;; ret (Some r))
              (fun exc => ret None) ;;
          match raw_collections with
          | Some (PList raw_collections) =>
              let (exact_match_key, casefold_match_key) :=
                scan_collections value raw_collections None in
              let resolved_key :=
                if nonempty exact_match_key then exact_match_key
                else casefold_match_key in
              if nonempty resolved_key then ret resolved_key
              else ret (Some value)
          | _ => ret (Some value)
          end
      end.

(** ** Conversion to the remote schema *)

Definition opt_str (o : option string) : PyVal :=
  match o with Some s => PStr s | None => PNone end.

Definition preprint_allowed_fields : list string :=
  ["itemType"; "title"; "creators"; "abstractNote"; "repository"; "archive";
   "archiveLocation"; "DOI"; "citationKey"; "url"; "accessDate"; "date";
   "shortTitle"; "language"; "rights"; "collections"; "extra"].

Definition _normalize_item_for_type (zotero_item : PyDict) (item_type : string)
  : PyDict :=
  let normalized_type := lower (strip item_type) in
  if negb (String.eqb normalized_type "preprint") then zotero_item
  else
    let publication_title := dict_get zotero_item "publicationTitle" in
    let zotero_item :=
      if truthy publication_title
         && negb (truthy (dict_get zotero_item "repository"))
      then dict_set "repository" publication_title zotero_item
      else zotero_item in
    List.filter (fun kv => string_in (fst kv) preprint_allowed_fields)
      (dict_items zotero_item).

(** [now] is today's date as the clock gives it when the item is built. *)
Definition _paper_to_zotero_item (now : string) (paper : PaperItem)
    (collection_keys : option (list string)) : PyDict :=
  let item_type :=
    if String.eqb (item_type paper) "" then "journalArticle"
    else item_type paper in
  let creators := map author_entry (authors paper) in
  let date_str :=
    match published_date paper with
    | Some d => PStr (isoformat d)
    | None => PNone
    end in
  let access_date_str :=
    match access_date paper with
    | Some d => isoformat d
    | None => now
    end in
  let zotero_item : PyDict :=
    [("itemType", PStr item_type);
     ("title", PStr (title paper));
     ("creators", PList creators);
     ("abstractNote",
       if String.eqb (abstract paper) "" then PNone else PStr (abstract paper));
     ("publicationTitle", opt_str (publication_title paper));
     ("journalAbbreviation", opt_str (journal_abbreviation paper));
     ("publisher", opt_str (publisher paper));
     ("place", opt_str (place paper));
     ("volume", opt_str (volume paper));
     ("issue", opt_str (issue paper));
     ("pages", opt_str (pages paper));
     ("section", opt_str (section paper));
     ("partNumber", opt_str (part_number paper));
     ("partTitle", opt_str (part_title paper));
     ("series", opt_str (series paper));
     ("seriesTitle", opt_str (series_title paper));
     ("seriesText", opt_str (series_text paper));
     ("DOI", opt_str (doi paper));
     ("citationKey", opt_str (citation_key paper));
     ("url", opt_str (url paper));
     ("accessDate", PStr access_date_str);
     ("PMID", opt_str (pmid paper));
     ("PMCID", opt_str (pmcid paper));
     ("ISSN", opt_str (issn paper));
     ("archive", opt_str (archive paper));
     ("archiveLocation", opt_str (archive_location paper));
     ("shortTitle", opt_str (short_title paper));
     ("language", opt_str (language paper));
     ("libraryCatalog", opt_str (library_catalog paper));
     ("callNumber", opt_str (call_number paper));
     ("rights", opt_str (rights paper));
     ("date", date_str)] in
  let zotero_item :=
    match collection_keys with
    | Some ((_ :: _) as keys) =>
        dict_set "collections" (PList (map PStr keys)) zotero_item
    | _ => zotero_item
    end in
  let zotero_item := _normalize_item_for_type zotero_item item_type in
  List.filter (fun kv => negb (is_none (snd kv))) (dict_items zotero_item).

(** ** Export orchestrator *)

(** The locals of [export] while the loop runs, and the machine. *)
Record RunState `{Host} : Type := {
  success_count : Z;
  failures : list (string * string);        (* (title, error) entries *)
  skipped_count : Z;
  skipped_by_key : gmap string Z;
  existing_key_set : gset IdentityKey;
  machine : Machine
}.

(** The mapping [export] returns. *)
Record ExportResult : Type := {
  res_success_count : Z;
  res_total : nat;
  res_skipped_count : Z;
  res_skipped_by_key : gmap string Z;
  res_failures : list (string * string)
}.

(** [for identity_key in identity_keys:
       if identity_key in existing_key_set: matched_key = identity_key; break] *)
Fixpoint find_matched_key (identity_keys : list IdentityKey)
    (existing_key_set : gset IdentityKey) : option IdentityKey :=
  match identity_keys with
  | [] => None
  | identity_key :: rest =>
      if bool_decide (identity_key ∈ existing_key_set) then Some identity_key
      else find_matched_key rest existing_key_set
  end.

(** [skipped_by_key[kind] = skipped_by_key.get(kind, 0) + n] *)
Definition bump (kind : string) (n : Z) (by_key : gmap string Z) : gmap string Z :=
  <[kind := default 0 (by_key !! kind) + n]> by_key.

Definition count_skip `{Host} (kind : string) (s : RunState) : RunState :=
  {| success_count := success_count s;
     failures := failures s;
     skipped_count := skipped_count s + 1;
     skipped_by_key := bump kind 1 (skipped_by_key s);
     existing_key_set := existing_key_set s;
     machine := machine s |}.

Definition add_counts `{Host} (created_n skipped_n : Z) (s : RunState) : RunState :=
  {| success_count := success_count s + created_n;
     failures := failures s;
     skipped_count := skipped_count s + skipped_n;
     skipped_by_key := skipped_by_key s;
     existing_key_set := existing_key_set s;
     machine := machine s |}.

Definition attribute_skips `{Host} (kind : string) (skipped_n : Z) (s : RunState)
  : RunState :=
  {| success_count := success_count s;
     failures := failures s;
     skipped_count := skipped_count s;
     skipped_by_key := bump kind skipped_n (skipped_by_key s);
     existing_key_set := existing_key_set s;
     machine := machine s |}.

Definition add_keys `{Host} (ks : list IdentityKey) (s : RunState) : RunState :=
  {| success_count := success_count s;
     failures := failures s;
     skipped_count := skipped_count s;
     skipped_by_key := skipped_by_key s;
     existing_key_set := existing_key_set s ∪ list_to_set ks;
     machine := machine s |}.

Definition append_failure `{Host} (paper_title error : string) (s : RunState)
  : RunState :=
  {| success_count := success_count s;
     failures := (failures s ++ [(paper_title, error)])%list;
     skipped_count := skipped_count s;
     skipped_by_key := skipped_by_key s;
     existing_key_set := existing_key_set s;
     machine := machine s |}.

Definition set_machine `{Host} (m : Machine) (s : RunState) : RunState :=
  {| success_count := success_count s;
     failures := failures s;
     skipped_count := skipped_count s;
     skipped_by_key := skipped_by_key s;
     existing_key_set := existing_key_set s;
     machine := m |}.

(** [await self._item_service.create_item(zotero_item)] *)
Definition call_create_item `{Host} (self : ZoteroAdapter) (zotero_item : PyDict)
  : ST RunState PyVal :=
  fun s =>
    let (w, result) := create_item self zotero_item (world (machine s)) in
    (set_machine
       {| world := w;
          trace := (trace (machine s) ++ [EvCreateItem zotero_item])%list |} s,
     result).

Definition get {S : Type} : ST S S := fun s => (s, Returned s).

Definition when {S : Type} (b : bool) (c : ST S unit) : ST S unit :=
  if b then c else ret tt.

(** The body of the [try] inside the loop of [export], for one paper. *)
Definition process_paper `{Host} `{Dedup} (self : ZoteroAdapter)
    (collection_keys : option (list string)) (paper : PaperItem)
  : ST RunState unit :=
  identity_keys <- lift_outcome (paper_export_identity_keys paper) ;;
  s <- get ;;
  match find_matched_key identity_keys (existing_key_set s) with
  | Some matched_key => modify (count_skip (fst matched_key))
  | None =>
      let zotero_item :=
        _paper_to_zotero_item (today (world (machine s))) paper collection_keys in
      create_result <- call_create_item self zotero_item ;;
      let '(created_n, skipped_n, failed_n) :=
        _extract_create_result_counts create_result in
      modify (add_counts created_n skipped_n) ;;;
      when (0 <? skipped_n)
        (match identity_keys with
         | key :: _ => modify (attribute_skips (fst key) skipped_n)
         | [] => ret tt
         end) ;;;
      when (0 <? created_n)
        (ks <- lift_outcome (zotero_data_identity_keys (PDict zotero_item)) ;;
         modify (add_keys ks)) ;;;
      when (0 <? failed_n)
        (modify
           (append_failure (title paper)
              (_summarize_create_failures create_result failed_n)))
  end.

(** One turn of the loop: the body, and the [except Exception as e] that
    records the failure. *)
Definition export_step `{Host} `{Dedup} (self : ZoteroAdapter)
    (collection_keys : option (list string)) (paper : PaperItem) (s : RunState)
  : RunState :=
  match process_paper self collection_keys paper s with
  | (s', Returned _) => s'
  | (s', Raised e) => append_failure (title paper) (exn_msg e) s'
  end.

(** [for paper in papers: ...] *)
Fixpoint export_loop `{Host} `{Dedup} (self : ZoteroAdapter)
    (collection_keys : option (list string)) (papers : list PaperItem)
    (s : RunState) : RunState :=
  match papers with
  | [] => s
  | paper :: rest =>
      export_loop self collection_keys rest
        (export_step self collection_keys paper s)
  end.

Definition initial_by_key : gmap string Z :=
  <["doi" := 0]> (<["title_date" := 0]> (<["url" := 0]> ∅)).

Definition initial_state `{Host} (existing_key_set : gset IdentityKey)
    (m : Machine) : RunState :=
  {| success_count := 0;
     failures := [];
     skipped_count := 0;
     skipped_by_key := initial_by_key;
     existing_key_set := existing_key_set;
     machine := m |}.

Definition result_of `{Host} (papers : list PaperItem) (s : RunState)
  : ExportResult :=
  {| res_success_count := success_count s;
     res_total := length papers;
     res_skipped_count := skipped_count s;
     res_skipped_by_key := skipped_by_key s;
     res_failures := failures s |}.

Definition zotero_missing : Exn :=
  {| exn_class := ImportError;
     exn_msg :=
       "zotero-mcp is required for ZoteroAdapter. " ++
       "Install it with: uv pip install /path/to/zotero-mcp" |}.

Definition export `{Host} `{Dedup} (self : ZoteroAdapter)
    (papers : list PaperItem) (collection_id : option string)
  : ST Machine ExportResult :=
  if negb zotero_available then raise zotero_missing
  else
    resolved_collection_id <- _resolve_collection_key self collection_id ;;
    let collection_keys :=
      if nonempty resolved_collection_id
      then Some [default "" resolved_collection_id] else None in
    existing_key_set <-
      try_except (_load_existing_identity_keys self) (fun exc => ret ∅) ;;
    fun m =>
      let s := export_loop self collection_keys papers
                 (initial_state existing_key_set m) in
      (machine s, Returned (result_of papers s)).

(** ** Identity keys, as the specification describes them *)

Module SpecDedup.

(** Modelled from the spec: [src/utils/dedup.py] is not among the sources;
    this helper drops a leading [p] from [s], for the DOI prefixes of §4.1. *)
Definition strip_prefix (p s : string) : string :=
  if String.prefix p s
  then String.substring (String.length p) (String.length s - String.length p) s
  else s.

(** Modelled from the spec: [normalize_doi] of the missing dedup module
    (§4.1): strip the [https://doi.org/], [http://doi.org/] and [doi:]
    prefixes, trim, lowercase the whole result. *)
Definition normalize_doi (raw : string) : string :=
  let s := lower (strip raw) in
  let s := strip_prefix "https://doi.org/" s in
  let s := strip_prefix "http://doi.org/" s in
  let s := strip_prefix "doi:" s in
  strip s.

(** Modelled from the spec: whitespace collapsing for [normalize_title] of
    the missing dedup module (§4.1); a run of whitespace becomes one space. *)
Fixpoint collapse_spaces (l : list ascii) (after_space : bool) : list ascii :=
  match l with
  | [] => []
  | c :: rest =>
      if is_space c
      then if after_space then collapse_spaces rest true
           else " "%char :: collapse_spaces rest true
      else c :: collapse_spaces rest false
  end.

(** Modelled from the spec: [normalize_title] of the missing dedup module
    (§4.1): lowercase, collapse internal whitespace, strip. *)
Definition normalize_title (raw : string) : string :=
  lower
    (strip
       (string_of_list_ascii (collapse_spaces (list_ascii_of_string raw) false))).

(** Modelled from the spec: [normalize_date] of the missing dedup module
    (§4.1): the canonical form keeps what was given, a full ISO date or a
    bare year. *)
Definition normalize_date (raw : string) : string := strip raw.

(** Modelled from the spec: for [normalize_url] of the missing dedup module
    (§4.1), the part of a URL before its query string or fragment. *)
Fixpoint before_query (l : list ascii) : list ascii :=
  match l with
  | [] => []
  | c :: rest =>
      if Ascii.eqb c "?"%char || Ascii.eqb c "#"%char then []
      else c :: before_query rest
  end.

(** Modelled from the spec: for [normalize_url] of the missing dedup module
    (§4.1), lowercase scheme and host, that is what precedes the third
    slash. *)
Fixpoint lower_authority (l : list ascii) (slashes : nat) : list ascii :=
  match l with
  | [] => []
  | c :: rest =>
      if Ascii.eqb c "/"%char then
        match slashes with
        | S (S _) => l
        | _ => c :: lower_authority rest (S slashes)
        end
      else lower_char c :: lower_authority rest slashes
  end.

(** Modelled from the spec: for [normalize_url] of the missing dedup module
    (§4.1), removal of one trailing slash. *)
Definition drop_trailing_slash (l : list ascii) : list ascii :=
  match rev l with
  | c :: rest => if Ascii.eqb c "/"%char then rev rest else l
  | [] => l
  end.

(** Modelled from the spec: [normalize_url] of the missing dedup module
    (§4.1): strip query string and fragment, lowercase scheme and host,
    remove a trailing slash. *)
Definition normalize_url (raw : string) : string :=
  string_of_list_ascii
    (drop_trailing_slash
       (lower_authority (before_query (list_ascii_of_string (strip raw))) 0)).

(** Modelled from the spec: a field counts as present when it holds a
    non-empty string (§4.2 of the spec, for the missing dedup module). *)
Definition present (o : option string) : option string :=
  match o with
  | Some s => if String.eqb s "" then None else Some s
  | None => None
  end.

(** Modelled from the spec: [derive_keys] of §4.2, the ordered tiers doi,
    title_date, url of the missing dedup module. *)
Definition derive_keys (title doi date url : option string)
  : list IdentityKey :=
  (match present (option_map normalize_doi (present doi)) with
   | Some d => [("doi", d)]
   | None => []
   end ++
   match present title, present date with
   | Some t, Some d =>
       [("title_date", (normalize_title t ++ "|" ++ normalize_date d)%string)]
   | _, _ => []
   end ++
   match present url with
   | Some u => [("url", normalize_url u)]
   | None => []
   end)%list.

(** Modelled from the spec: [paper_export_identity_keys] of the missing
    dedup module, [derive_keys] (§4.2) on a local paper record. *)
Definition paper_keys (paper : PaperItem) : list IdentityKey :=
  derive_keys (Some (title paper)) (doi paper)
    (option_map isoformat (published_date paper)) (url paper).

(** Modelled from the spec: reading a string field of a remote item for the
    missing dedup module. *)
Definition str_field (data : PyDict) (k : string) : option string :=
  match dict_get data k with PStr s => Some s | _ => None end.

(** Modelled from the spec: [zotero_data_identity_keys] of the missing dedup
    module, [derive_keys] (§4.2) on a remote item or outgoing payload, whose
    fields sit under [data] or at top level (§3). *)
Definition data_keys (item : PyVal) : list IdentityKey :=
  match item with
  | PDict item =>
      let data := match dict_get item "data" with PDict d => d | _ => item end in
      derive_keys (str_field data "title") (str_field data "DOI")
        (str_field data "date") (str_field data "url")
  | _ => []
  end.

End SpecDedup.

(** Modelled from the spec: the two imports from the missing
    [src/utils/dedup.py], as §4.2 describes them. *)
Definition spec_dedup : Dedup :=
  {| paper_export_identity_keys := fun paper => Returned (SpecDedup.paper_keys paper);
     zotero_data_identity_keys := fun item => Returned (SpecDedup.data_keys item) |}.

(** ** Concrete runs *)

(** A host whose world counts the create calls made so far. *)
Definition demo_host : Host :=
  {| World := nat;
     zotero_available := true;
     today := fun _ => "2026-01-01";
     py_repr := fun _ => "<object>" |}.

(** A client object with no callable attribute at all, like [object()]. *)
Definition bare_target : @Target demo_host :=
  {| class_name := "object"; getattr_callable := fun _ => None |}.

(** An adapter whose create call always answers [reply], and whose client
    has neither a listing method nor [get_collections]. *)
Definition replying_adapter (reply : PyVal) : @ZoteroAdapter demo_host :=
  {| _item_service := bare_target;
     _api_client := bare_target;
     create_item := fun _ (w : @World demo_host) => (S w, Returned reply) |}.

(** An adapter whose create call always raises. *)
Definition failing_adapter (e : Exn) : @ZoteroAdapter demo_host :=
  {| _item_service := bare_target;
     _api_client := bare_target;
     create_item := fun _ (w : @World demo_host) => (S w, Raised e) |}.

Definition demo_paper (t : string) (d u : option string) : PaperItem :=
  {| title := t; source := "Test"; source_type := "rss"; authors := [];
     abstract := ""; published_date := None; doi := d; url := u;
     pdf_url := None; publication_title := None; journal_abbreviation := None;
     publisher := None; place := None; volume := None; issue := None;
     pages := None; section := None; part_number := None; part_title := None;
     series := None; series_title := None; series_text := None;
     citation_key := None; access_date := None; pmid := None; pmcid := None;
     issn := None; archive := None; archive_location := None;
     short_title := None; language := None; library_catalog := None;
     call_number := None; rights := None; item_type := "journalArticle" |}.

Definition demo_machine : @Machine demo_host := @Build_Machine demo_host 0%nat [].

(** [{"created": [{}], "skipped_duplicates": [], "failed": []}] *)
Definition created_one : PyVal :=
  PDict [("created", PList [PDict []]); ("skipped_duplicates", PList []);
         ("failed", PList [])].

(** [{"created": [], "failed": [], "skipped_duplicates": [{}]}] *)
Definition skipped_one : PyVal :=
  PDict [("created", PList []); ("failed", PList []);
         ("skipped_duplicates", PList [PDict []])].

(** [{"ok": True}] *)
Definition ok_true : PyVal := PDict [("ok", PBool true)].

(** [{"successful": {"0": {"key": "ABCD1234"}}, "created": 0, "failed": {},
      "skipped_duplicates": 0}] *)
Definition successful_map : PyVal :=
  PDict [("successful", PDict [("0", PDict [("key", PStr "ABCD1234")])]);
         ("created", PInt 0); ("failed", PDict []);
         ("skipped_duplicates", PInt 0)].

(** A listing method declaring [limit] and [start] that always raises. *)
Definition raising_list_method : @Method demo_host :=
  @Build_Method demo_host
    (Returned {| parameters := ["limit"; "start"]; var_keyword := false |})
    (fun _ w =>
       (w, Raised {| exn_class := RuntimeError; exn_msg := "preload failed" |})).

(** An item service whose only listing method is the one above. *)
Definition raising_list_target : @Target demo_host :=
  {| class_name := "ItemService";
     getattr_callable :=
       fun name =>
         if String.eqb name "list_items" then Some raising_list_method
         else None |}.

(** An adapter whose listing fails and whose create call answers [reply]. *)
Definition unlistable_adapter (reply : PyVal) : @ZoteroAdapter demo_host :=
  {| _item_service := raising_list_target;
     _api_client := bare_target;
     create_item := fun _ (w : @World demo_host) => (S w, Returned reply) |}.

(** [{"title": "Top", "date": "", "year": 2025,
      "raw_data": {"title": "Raw"}}] *)
Definition flat_item : PyDict :=
  [("title", PStr "Top"); ("date", PStr ""); ("year", PInt 2025);
   ("raw_data", PDict [("title", PStr "Raw")])].

(** ** Notions used to state further properties *)

(** The sum of the per-kind skip counters. *)
Definition by_key_total (by_key : gmap string Z) : Z :=
  map_fold (fun _ n acc => n + acc) 0 by_key.

(** The named alternates that [_extract_create_result_counts] falls back to. *)
Definition alternate_count_fields : list string :=
  ["created_count"; "success_count"; "inserted_count"; "skipped_count";
   "duplicate_count"; "failed_count"; "error_count"].

(** The primary counts of a create result: [created], [skipped_duplicates]
    and [failed], with [failures] standing in for a zero [failed]. *)
Definition primary_counts (result : PyDict) : Z * Z * Z :=
  let failed_n := _count (dict_get result "failed") in
  (_count (dict_get result "created"),
   _count (dict_get result "skipped_duplicates"),
   if failed_n =? 0 then _count (dict_get result "failures") else failed_n).

(** [{"created": [{}], "failed": [], "skipped_duplicates": []}], as a dict. *)
Definition created_one_fields : PyDict :=
  [("created", PList [PDict []]); ("skipped_duplicates", PList []);
   ("failed", PList [])].

(** A client method taking no parameter and answering [answer]. *)
Definition answering_method (answer : PyVal) : @Method demo_host :=
  @Build_Method demo_host
    (Returned {| parameters := []; var_keyword := false |})
    (fun _ w => (w, Returned answer)).

(** An adapter whose API client has a [get_collections] answering
    [collections]; there is no listing method. *)
Definition collections_adapter (collections : PyVal) : @ZoteroAdapter demo_host :=
  {| _item_service := bare_target;
     _api_client :=
       {| class_name := "ZoteroAPIClient";
          getattr_callable :=
            fun name =>
              if String.eqb name "get_collections"
              then Some (answering_method collections) else None |};
     create_item := fun _ (w : @World demo_host) => (S w, Returned created_one) |}.

(** [{"key": key, "data": {"name": name}}], a collection as the store
    lists it. *)
Definition collection_entry (key name : string) : PyDict :=
  [("key", PStr key); ("data", PDict [("name", PStr name)])].

(** An adapter whose item service has one listing method, [get_items],
    taking no parameter and answering [listing]. *)
Definition listing_adapter (listing : PyVal) : @ZoteroAdapter demo_host :=
  {| _item_service :=
       {| class_name := "ItemService";
          getattr_callable :=
            fun name =>
              if String.eqb name "get_items"
              then Some (answering_method listing) else None |};
     _api_client := bare_target;
     create_item := fun _ (w : @World demo_host) => (S w, Returned created_one) |}.

(** A key derivation that, for remote items, raises when the title is
    neither missing nor a string, and otherwise follows [spec_dedup]. *)
Definition picky_dedup : Dedup :=
  {| paper_export_identity_keys :=
       fun paper => Returned (SpecDedup.paper_keys paper);
     zotero_data_identity_keys :=
       fun item =>
         match item with
         | PDict d =>
             let data := match dict_get d "data" with PDict x => x | _ => d end in
             match dict_get data "title" with
             | PNone | PStr _ => Returned (SpecDedup.data_keys item)
             | _ =>
                 Raised {| exn_class := OtherError "AttributeError";
                           exn_msg := "object has no attribute 'lower'" |}
             end
         | _ => Returned []
         end |}.

(** [{"data": {"title": "Old Title", "DOI": "10.1/old"}}] *)
Definition remote_item : PyDict :=
  [("data", PDict [("title", PStr "Old Title"); ("DOI", PStr "10.1/old")])].

(** A declared signature [(limit, start)] whose calls answer an empty list. *)
Definition paged_method : @Method demo_host :=
  @Build_Method demo_host
    (Returned {| parameters := ["limit"; "start"]; var_keyword := false |})
    (fun _ w => (w, Returned (PList []))).

(** [{"successful": {}, "failed": {"0": {"code": 400, "message":
      "invalid collection key"}}, "created": 0, "failed_count": 1,
      "skipped_duplicates": 0}] *)
Definition failed_detail : PyVal :=
  PDict [("successful", PDict []);
         ("failed",
          PDict [("0", PDict [("code", PInt 400);
                              ("message", PStr "invalid collection key")])]);
         ("created", PInt 0); ("failed_count", PInt 1);
         ("skipped_duplicates", PInt 0)].

(** * Properties *)

(** ** Dicts *)

Lemma dict_lookup_set_eq (k : string) (v : PyVal) (d : PyDict) :
  dict_lookup (dict_set k v d) k = Some v.
Proof.
  induction d as [|[k' v'] d IH]; simpl.
  - now rewrite String.eqb_refl.
  - destruct (String.eqb k' k) eqn:E; simpl; rewrite E; auto.
Qed.

Lemma dict_lookup_set_ne (k k' : string) (v : PyVal) (d : PyDict) :
  k' <> k -> dict_lookup (dict_set k' v d) k = dict_lookup d k.
Proof.
  intros Hne. induction d as [|[k0 v0] d IH]; simpl.
  - apply String.eqb_neq in Hne. now rewrite Hne.
  - destruct (String.eqb k0 k') eqn:E; simpl.
    + apply String.eqb_eq in E. subst k0.
      apply String.eqb_neq in Hne. now rewrite Hne.
    + now rewrite IH.
Qed.

Lemma dict_lookup_filter_ne (k k0 : string) (d : PyDict) :
  k0 <> k ->
  dict_lookup (List.filter (fun kv => negb (String.eqb (fst kv) k0)) d) k
  = dict_lookup d k.
Proof.
  intros Hne. induction d as [|[k' v'] d IH]; simpl; auto.
  destruct (String.eqb k' k0) eqn:E; simpl.
  - apply String.eqb_eq in E. subst k'.
    apply String.eqb_neq in Hne. now rewrite Hne.
  - now rewrite IH.
Qed.

Lemma dict_lookup_filter_eq (k : string) (d : PyDict) :
  dict_lookup (List.filter (fun kv => negb (String.eqb (fst kv) k)) d) k = None.
Proof.
  induction d as [|[k' v'] d IH]; simpl; auto.
  destruct (String.eqb k' k) eqn:E; simpl; auto. now rewrite E.
Qed.

Lemma dict_lookup_items (k : string) (d : PyDict) :
  dict_lookup (dict_items d) k = dict_lookup d k.
Proof.
  induction d as [|[k' v'] d IH]; simpl; auto.
  destruct (String.eqb k' k) eqn:E; auto.
  rewrite dict_lookup_filter_ne; auto.
  intros ->. now rewrite String.eqb_refl in E.
Qed.

Lemma dict_lookup_not_in (k : string) (d : PyDict) :
  ~ In k (map fst d) -> dict_lookup d k = None.
Proof.
  induction d as [|[k' v'] d IH]; simpl; auto.
  intros Hn. destruct (String.eqb_spec k' k) as [->|Hne].
  - exfalso. apply Hn. now left.
  - apply IH. intros Hin. apply Hn. now right.
Qed.

Lemma NoDup_keys_filter (P : string * PyVal -> bool) (d : PyDict) :
  NoDup (map fst d) -> NoDup (map fst (List.filter P d)).
Proof.
  induction d as [|kv d IH]; simpl; intros Hnd; auto.
  inversion Hnd as [|x l Hnotin Hnd' Heq]; subst.
  destruct (P kv); simpl; auto.
  constructor; auto.
  intros Hin. apply Hnotin.
  apply list_elem_of_In. apply list_elem_of_In in Hin.
  apply in_map_iff in Hin. destruct Hin as [kv' [Hfst Hin]].
  apply filter_In in Hin. destruct Hin as [Hin _].
  apply in_map_iff. now exists kv'.
Qed.

Lemma NoDup_dict_items (d : PyDict) : NoDup (map fst (dict_items d)).
Proof.
  induction d as [|[k v] d IH]; simpl.
  - constructor.
  - constructor.
    + intros Hin. apply list_elem_of_In in Hin.
      apply in_map_iff in Hin. destruct Hin as [[k' v'] [Hfst Hin]].
      simpl in Hfst. subst k'. apply filter_In in Hin. destruct Hin as [_ Hneq].
      simpl in Hneq. now rewrite String.eqb_refl in Hneq.
    + now apply NoDup_keys_filter.
Qed.

(** Folding bindings with distinct keys into [acc] makes them win over [acc]. *)
Lemma dict_lookup_fold_set (k : string) (items acc : PyDict) :
  NoDup (map fst items) ->
  dict_lookup
    (fold_left (fun a kv => dict_set (fst kv) (snd kv) a) items acc) k
  = match dict_lookup items k with
    | Some v => Some v
    | None => dict_lookup acc k
    end.
Proof.
  revert acc. induction items as [|[k1 v1] items IH]; intros acc Hnd; simpl; auto.
  inversion Hnd as [|x l Hnotin Hnd' Heq]; subst.
  rewrite IH by assumption.
  destruct (String.eqb_spec k1 k) as [->|Hne].
  - rewrite dict_lookup_not_in by (now rewrite <- list_elem_of_In).
    apply dict_lookup_set_eq.
  - now rewrite dict_lookup_set_ne.
Qed.

Lemma dict_lookup_update (k : string) (d src : PyDict) :
  dict_lookup (dict_update d src) k
  = match dict_lookup src k with
    | Some v => Some v
    | None => dict_lookup d k
    end.
Proof.
  unfold dict_update.
  rewrite dict_lookup_fold_set by apply NoDup_dict_items.
  now rewrite dict_lookup_items.
Qed.

Lemma dict_mem_lookup (d : PyDict) (k : string) (v : PyVal) :
  dict_lookup d k = Some v -> dict_mem d k = true.
Proof. unfold dict_mem. now intros ->. Qed.

Lemma lookup_set_if_new_kept (key k : string) (value v : PyVal) (mapped : PyDict) :
  dict_lookup mapped k = Some v ->
  dict_lookup (set_if_new key value mapped) k = Some v.
Proof.
  intros Hl. unfold set_if_new.
  destruct (truthy value && negb (dict_mem mapped key)) eqn:E; auto.
  destruct (String.eqb_spec key k) as [->|Hne].
  - rewrite (dict_mem_lookup _ _ _ Hl) in E.
    now rewrite andb_false_r in E.
  - now rewrite dict_lookup_set_ne.
Qed.

Lemma lookup_set_if_new_other (key k : string) (value : PyVal) (mapped : PyDict) :
  key <> k ->
  dict_lookup (set_if_new key value mapped) k = dict_lookup mapped k.
Proof.
  intros Hne. unfold set_if_new.
  destruct (truthy value && negb (dict_mem mapped key)); auto.
  now rewrite dict_lookup_set_ne.
Qed.

(** ** Strings *)

Lemma strip_empty : strip "" = "".
Proof. reflexivity. Qed.

Lemma strip_nonempty (s : string) : strip s <> "" -> s <> "".
Proof. intros Hs ->. now apply Hs. Qed.

(** ** One turn of the export loop *)

Section ExportStep.

Context {host : Host} {dedup : Dedup}.
Variable self : ZoteroAdapter.
Variable collection_keys : option (list string).

Local Ltac run_step :=
  unfold export_step, process_paper, bind, lift_outcome, get, modify, when,
    call_create_item, ret.

Lemma find_matched_key_Some (keys : list IdentityKey) (index : gset IdentityKey)
    (k : IdentityKey) :
  find_matched_key keys index = Some k ->
  exists pre post,
    keys = (pre ++ k :: post)%list /\ k ∈ index /\
    (forall x, In x pre -> x ∉ index).
Proof.
  induction keys as [|k0 keys IH]; simpl; [discriminate|].
  destruct (bool_decide (k0 ∈ index)) eqn:E; intros Hf.
  - inversion Hf; subst k0. apply bool_decide_eq_true in E.
    exists [], keys. repeat split; auto; intros x [].
  - apply bool_decide_eq_false in E.
    destruct (IH Hf) as [pre [post [-> [Hin Hpre]]]].
    exists (k0 :: pre), post. repeat split; auto.
    intros x [<-|Hx]; auto.
Qed.

Lemma find_matched_key_None (keys : list IdentityKey) (index : gset IdentityKey) :
  find_matched_key keys index = None <-> (forall x, In x keys -> x ∉ index).
Proof.
  induction keys as [|k0 keys IH]; simpl.
  - split; [intros _ x []|auto].
  - destruct (bool_decide (k0 ∈ index)) eqn:E.
    + apply bool_decide_eq_true in E. split; [discriminate|].
      intros Hall. exfalso. apply (Hall k0); auto.
    + apply bool_decide_eq_false in E. rewrite IH. split.
      * intros Hall x [<-|Hx]; auto.
      * intros Hall x Hx. apply Hall. now right.
Qed.

Lemma find_matched_key_hit (keys : list IdentityKey) (index : gset IdentityKey) :
  (exists k, In k keys /\ k ∈ index) ->
  exists k, find_matched_key keys index = Some k.
Proof.
  intros [k [Hin Hk]].
  destruct (find_matched_key keys index) as [k'|] eqn:E; [now exists k'|].
  exfalso. rewrite find_matched_key_None in E. now apply (E k).
Qed.

(** A record one of whose keys is in the index is counted as skipped. *)
Lemma step_skip (paper : PaperItem) (s : RunState) (keys : list IdentityKey)
    (k : IdentityKey) :
  paper_export_identity_keys paper = Returned keys ->
  find_matched_key keys (existing_key_set s) = Some k ->
  export_step self collection_keys paper s = count_skip (fst k) s.
Proof. intros Hk Hf. run_step. now rewrite Hk, Hf. Qed.

(** Key derivation raising: the failure is recorded, nothing else moves. *)
Lemma step_keys_raise (paper : PaperItem) (s : RunState) (e : Exn) :
  paper_export_identity_keys paper = Raised e ->
  export_step self collection_keys paper s
  = append_failure (title paper) (exn_msg e) s.
Proof. intros Hk. run_step. now rewrite Hk. Qed.

(** The create call raising: the call was made, the failure is recorded. *)
Lemma step_create_raise (paper : PaperItem) (s : RunState)
    (keys : list IdentityKey) (w : World) (e : Exn) :
  paper_export_identity_keys paper = Returned keys ->
  find_matched_key keys (existing_key_set s) = None ->
  let zotero_item :=
    _paper_to_zotero_item (today (world (machine s))) paper collection_keys in
  create_item self zotero_item (world (machine s)) = (w, Raised e) ->
  export_step self collection_keys paper s
  = append_failure (title paper) (exn_msg e)
      (set_machine
         {| world := w;
            trace := (trace (machine s) ++ [EvCreateItem zotero_item])%list |} s).
Proof. intros Hk Hf zi Hc. run_step. rewrite Hk, Hf. fold zi. now rewrite Hc. Qed.

(** The create call answering [result]: what the turn leaves behind. *)
Lemma step_create (paper : PaperItem) (s : RunState)
    (keys : list IdentityKey) (w : World) (result : PyVal)
    (created_n skipped_n failed_n : Z) :
  paper_export_identity_keys paper = Returned keys ->
  find_matched_key keys (existing_key_set s) = None ->
  let zotero_item :=
    _paper_to_zotero_item (today (world (machine s))) paper collection_keys in
  create_item self zotero_item (world (machine s)) = (w, Returned result) ->
  _extract_create_result_counts result = (created_n, skipped_n, failed_n) ->
  let s' := export_step self collection_keys paper s in
  let reported :=
    if 0 <? failed_n
    then [(title paper, _summarize_create_failures result failed_n)] else [] in
  machine s'
  = {| world := w;
       trace := (trace (machine s) ++ [EvCreateItem zotero_item])%list |} /\
  success_count s' = success_count s + created_n /\
  skipped_count s' = skipped_count s + skipped_n /\
  skipped_by_key s'
  = (if 0 <? skipped_n
     then match keys with
          | key :: _ => bump (fst key) skipped_n (skipped_by_key s)
          | [] => skipped_by_key s
          end
     else skipped_by_key s) /\
  existing_key_set s'
  = (if 0 <? created_n
     then match zotero_data_identity_keys (PDict zotero_item) with
          | Returned ks => existing_key_set s ∪ list_to_set ks
          | Raised _ => existing_key_set s
          end
     else existing_key_set s) /\
  failures s'
  = (failures s ++
     (if 0 <? created_n
      then match zotero_data_identity_keys (PDict zotero_item) with
           | Returned _ => reported
           | Raised e => [(title paper, exn_msg e)]
           end
      else reported))%list.
Proof.
  intros Hk Hf zi Hc Hn s' reported. subst s' reported.
  run_step. rewrite Hk, Hf. fold zi. rewrite Hc. simpl. rewrite Hn.
  destruct (0 <? skipped_n); destruct keys as [|key keys'];
    destruct (0 <? created_n);
    try destruct (zotero_data_identity_keys (PDict zi)) as [e|ks];
    destruct (0 <? failed_n); simpl;
    rewrite ?app_nil_r; repeat split; reflexivity.
Qed.

(** A raise inside the body of the loop happens before any failure entry is
    appended: the failure list is as the turn found it. *)
Lemma process_raise_keeps_failures (paper : PaperItem) (s s' : RunState)
    (e : Exn) :
  process_paper self collection_keys paper s = (s', Raised e) ->
  failures s' = failures s.
Proof.
  unfold process_paper, bind, lift_outcome, get, modify, when,
    call_create_item, ret.
  destruct (paper_export_identity_keys paper) as [e0|keys];
    [intros Hp; now inversion Hp|].
  destruct (find_matched_key keys (existing_key_set s)); [discriminate|].
  destruct (create_item self _ (world (machine s))) as [w [e0|result]];
    [intros Hp; now inversion Hp|].
  destruct (_extract_create_result_counts result) as [[c sk] f].
  destruct (0 <? sk); destruct keys as [|key keys'];
    destruct (0 <? c);
    try destruct (zotero_data_identity_keys _) as [e0|ks];
    destruct (0 <? f); simpl; intros Hp; try discriminate;
    now inversion Hp.
Qed.

End ExportStep.

(** ** The export loop *)

Section ExportLoop.

Context {host : Host} {dedup : Dedup}.
Variable self : ZoteroAdapter.
Variable collection_keys : option (list string).

Lemma export_loop_app (l1 l2 : list PaperItem) (s : RunState) :
  export_loop self collection_keys (l1 ++ l2) s
  = export_loop self collection_keys l2 (export_loop self collection_keys l1 s).
Proof. revert s. induction l1 as [|p l1 IH]; intros s; simpl; auto. Qed.

(** Every turn ends in one of four ways. *)
Lemma step_cases (paper : PaperItem) (s : RunState) :
  let zotero_item :=
    _paper_to_zotero_item (today (world (machine s))) paper collection_keys in
  (exists e, paper_export_identity_keys paper = Raised e) \/
  (exists keys k,
     paper_export_identity_keys paper = Returned keys /\
     find_matched_key keys (existing_key_set s) = Some k) \/
  (exists keys w e,
     paper_export_identity_keys paper = Returned keys /\
     find_matched_key keys (existing_key_set s) = None /\
     create_item self zotero_item (world (machine s)) = (w, Raised e)) \/
  (exists keys w result,
     paper_export_identity_keys paper = Returned keys /\
     find_matched_key keys (existing_key_set s) = None /\
     create_item self zotero_item (world (machine s)) = (w, Returned result)).
Proof.
  intros zi.
  destruct (paper_export_identity_keys paper) as [e|keys] eqn:Hk; [left; eauto|].
  destruct (find_matched_key keys (existing_key_set s)) as [k|] eqn:Hf;
    [right; left; eauto|].
  destruct (create_item self zi (world (machine s))) as [w [e|result]] eqn:Hc.
  - right; right; left. exists keys, w, e. auto.
  - right; right; right. exists keys, w, result. auto.
Qed.

(** The index only grows in a turn. *)
Lemma step_index_mono (paper : PaperItem) (s : RunState) :
  existing_key_set s ⊆ existing_key_set (export_step self collection_keys paper s).
Proof.
  destruct (step_cases paper s)
    as [[e Hk]|[(keys & k & Hk & Hf)|[(keys & w & e & Hk & Hf & Hc)
       |(keys & w & result & Hk & Hf & Hc)]]].
  - now rewrite (step_keys_raise _ _ _ _ _ Hk).
  - now rewrite (step_skip _ _ _ _ _ _ Hk Hf).
  - now rewrite (step_create_raise _ _ _ _ _ _ _ Hk Hf Hc).
  - destruct (_extract_create_result_counts result) as [[c sk] f] eqn:Hn.
    destruct (step_create _ _ _ _ _ _ _ _ _ _ Hk Hf Hc Hn)
      as (_ & _ & _ & _ & Hidx & _).
    rewrite Hidx. destruct (0 <? c); [|done].
    clear Hidx. destruct (zotero_data_identity_keys _); set_solver.
Qed.

(** The index only grows in a run. *)
Lemma loop_index_mono (papers : list PaperItem) (s : RunState) :
  existing_key_set s
  ⊆ existing_key_set (export_loop self collection_keys papers s).
Proof.
  revert s. induction papers as [|p papers IH]; intros s; simpl; [done|].
  etransitivity; [apply (step_index_mono p)|apply IH].
Qed.

(** Failure entries are only appended in a turn. *)
Lemma step_failures_grow (paper : PaperItem) (s : RunState) :
  exists more,
    failures (export_step self collection_keys paper s)
    = (failures s ++ more)%list.
Proof.
  destruct (step_cases paper s)
    as [[e Hk]|[(keys & k & Hk & Hf)|[(keys & w & e & Hk & Hf & Hc)
       |(keys & w & result & Hk & Hf & Hc)]]].
  - rewrite (step_keys_raise _ _ _ _ _ Hk). simpl. eauto.
  - rewrite (step_skip _ _ _ _ _ _ Hk Hf). simpl. exists []. now rewrite app_nil_r.
  - rewrite (step_create_raise _ _ _ _ _ _ _ Hk Hf Hc). simpl. eauto.
  - destruct (_extract_create_result_counts result) as [[c sk] f] eqn:Hn.
    destruct (step_create _ _ _ _ _ _ _ _ _ _ Hk Hf Hc Hn)
      as (_ & _ & _ & _ & _ & Hfail).
    rewrite Hfail. eauto.
Qed.


(** Failure entries are only appended in a run. *)
Lemma loop_failures_grow (papers : list PaperItem) (s : RunState) :
  exists more,
    failures (export_loop self collection_keys papers s)
    = (failures s ++ more)%list.
Proof.
  revert s. induction papers as [|p papers IH]; intros s; simpl.
  - exists []. now rewrite app_nil_r.
  - destruct (step_failures_grow p s) as [f1 H1].
    destruct (IH (export_step self collection_keys p s)) as [f2 H2].
    exists (f1 ++ f2)%list. now rewrite H2, H1, <- app_assoc.
Qed.



End ExportLoop.

(** ** The claims about the export loop *)

Section ExportClaims.

Context {host : Host} {dedup : Dedup}.
Variable self : ZoteroAdapter.
Variable collection_keys : option (list string).

(** C1. When a record's derived keys are checked against the index in the
    order of the key list and one of them is present, the first such key
    decides: the overall skip counter and the counter of that key's kind
    each go up by one, no create call is made (the machine, trace included,
    is untouched), nothing else changes, and the loop goes on with the next
    record. *)
Theorem skip_on_first_matching_key
    (paper : PaperItem) (rest : list PaperItem) (s : RunState)
    (keys : list IdentityKey) :
  paper_export_identity_keys paper = Returned keys ->
  (exists k, In k keys /\ k ∈ existing_key_set s) ->
  exists pre matched post,
    keys = (pre ++ matched :: post)%list /\
    matched ∈ existing_key_set s /\
    (forall x, In x pre -> x ∉ existing_key_set s) /\
    let s' := export_step self collection_keys paper s in
    skipped_count s' = skipped_count s + 1 /\
    skipped_by_key s' !! fst matched
    = Some (default 0 (skipped_by_key s !! fst matched) + 1) /\
    (forall kind, kind <> fst matched ->
       skipped_by_key s' !! kind = skipped_by_key s !! kind) /\
    machine s' = machine s /\
    success_count s' = success_count s /\
    failures s' = failures s /\
    existing_key_set s' = existing_key_set s /\
    export_loop self collection_keys (paper :: rest) s
    = export_loop self collection_keys rest s'.
Proof.
  intros Hk Hhit.
  destruct (find_matched_key_hit _ _ Hhit) as [matched Hf].
  destruct (find_matched_key_Some _ _ _ Hf) as (pre & post & Hkeys & Hin & Hpre).
  exists pre, matched, post. repeat split; auto; simpl;
    rewrite (step_skip _ _ _ _ _ _ Hk Hf); simpl; auto.
  - unfold bump. apply lookup_insert_eq.
  - intros kind Hne. unfold bump. now apply lookup_insert_ne.
Qed.

(** C2, as amended. The index only grows over a run. When the create call
    for a new record reports created_count > 0, the keys derived from the
    outgoing payload are in the index as soon as that turn ends. So a later
    identical record, if it derives a key that the payload also derives, is
    skipped: the skip counter goes up by one and no create call is made. *)
Theorem index_grows_and_later_duplicate_is_skipped
    (paper : PaperItem) (between : list PaperItem) (s : RunState)
    (keys ks : list IdentityKey) (k : IdentityKey) (w : World)
    (result : PyVal) (created_n skipped_n failed_n : Z) :
  let zotero_item :=
    _paper_to_zotero_item (today (world (machine s))) paper collection_keys in
  paper_export_identity_keys paper = Returned keys ->
  find_matched_key keys (existing_key_set s) = None ->
  create_item self zotero_item (world (machine s)) = (w, Returned result) ->
  _extract_create_result_counts result = (created_n, skipped_n, failed_n) ->
  0 < created_n ->
  zotero_data_identity_keys (PDict zotero_item) = Returned ks ->
  In k keys -> In k ks ->
  let s1 := export_step self collection_keys paper s in
  let s2 := export_loop self collection_keys between s1 in
  let s3 := export_step self collection_keys paper s2 in
  (forall papers s0,
     existing_key_set s0
     ⊆ existing_key_set (export_loop self collection_keys papers s0)) /\
  success_count s1 = success_count s + created_n /\
  trace (machine s1) = (trace (machine s) ++ [EvCreateItem zotero_item])%list /\
  existing_key_set s1 = existing_key_set s ∪ list_to_set ks /\
  existing_key_set s1 ⊆ existing_key_set s2 /\
  skipped_count s3 = skipped_count s2 + 1 /\
  success_count s3 = success_count s2 /\
  machine s3 = machine s2 /\
  existing_key_set s3 = existing_key_set s2.
Proof.
  intros zi Hk Hf Hc Hn Hpos Hz Hin Hks s1 s2 s3.
  destruct (step_create self collection_keys _ _ _ _ _ _ _ _ Hk Hf Hc Hn)
    as (Hm & Hsucc & _ & _ & Hidx & _).
  fold zi in Hm, Hidx. fold s1 in Hm, Hsucc, Hidx.
  apply Z.ltb_lt in Hpos. rewrite Hpos, Hz in Hidx.
  assert (Hmono : existing_key_set s1 ⊆ existing_key_set s2)
    by apply loop_index_mono.
  assert (Hk2 : k ∈ existing_key_set s2).
  { apply Hmono. rewrite Hidx. apply elem_of_union_r.
    apply elem_of_list_to_set. now apply list_elem_of_In. }
  destruct (find_matched_key_hit keys (existing_key_set s2)) as [k' Hf2];
    [now exists k|].
  split; [intros papers s0; apply loop_index_mono|].
  split; [exact Hsucc|].
  split; [now rewrite Hm|].
  split; [exact Hidx|].
  split; [exact Hmono|].
  subst s3. rewrite (step_skip _ _ _ _ _ _ Hk Hf2). simpl. auto.
Qed.

(** A mapping that holds none of the fields the interpreter reads counts as
    nothing, whatever else it holds. *)
Lemma no_count_field_counts_nothing (d : PyDict) :
  (forall field, In field recognized_count_fields -> dict_lookup d field = None) ->
  _extract_create_result_counts (PDict d) = (0, 0, 0).
Proof.
  intros Hnone.
  assert (Hget : forall field,
            In field recognized_count_fields -> dict_get d field = PNone).
  { intros field Hin. unfold dict_get. now rewrite (Hnone field Hin). }
  unfold _extract_create_result_counts. cbn [first_positive].
  rewrite !Hget by (unfold recognized_count_fields; simpl; tauto).
  reflexivity.
Qed.

(** C3. A create result that is not a mapping counts as (0, 0, 0), and so
    does every mapping that holds none of the recognized count fields,
    whatever other fields it holds; [{"ok": True}] is such a mapping. A turn
    whose create call answers such a result makes that call and leaves the
    success counter, the skip counters, the index and the failure list as
    they were. *)
Theorem unrecognized_result_counts_nothing
    (result : PyVal) (paper : PaperItem) (s : RunState)
    (keys : list IdentityKey) (w : World) :
  is_dict result = false \/
  (exists d,
     result = PDict d /\
     forall field,
       In field recognized_count_fields -> dict_lookup d field = None) ->
  _extract_create_result_counts result = (0, 0, 0) /\
  (paper_export_identity_keys paper = Returned keys ->
   find_matched_key keys (existing_key_set s) = None ->
   create_item self
     (_paper_to_zotero_item (today (world (machine s))) paper collection_keys)
     (world (machine s)) = (w, Returned result) ->
   let s' := export_step self collection_keys paper s in
   success_count s' = success_count s /\
   failures s' = failures s /\
   skipped_count s' = skipped_count s /\
   skipped_by_key s' = skipped_by_key s /\
   existing_key_set s' = existing_key_set s /\
   machine s'
   = {| world := w;
        trace :=
          (trace (machine s) ++
           [EvCreateItem
              (_paper_to_zotero_item (today (world (machine s))) paper
                 collection_keys)])%list |}).
Proof.
  intros Hres.
  assert (Hn : _extract_create_result_counts result = (0, 0, 0)).
  { destruct Hres as [Hnd|(d & -> & Hnone)].
    - destruct result; try reflexivity; discriminate.
    - now apply no_count_field_counts_nothing. }
  split; [exact Hn|].
  intros Hk Hf Hc s'.
  destruct (step_create self collection_keys _ _ _ _ _ _ _ _ Hk Hf Hc Hn)
    as (Hm & Hsucc & Hskip & Hby & Hidx & Hfail).
  fold s' in Hm, Hsucc, Hskip, Hby, Hidx, Hfail. simpl in *.
  rewrite app_nil_r in Hfail. rewrite Z.add_0_r in Hsucc, Hskip.
  repeat split; assumption.
Qed.

(** C7, as amended. When the create call reports skipped_n > 0 for a record,
    skipped_n is added to the overall skip counter; it is added to the
    counter of the kind of the record's first derived key when there is one,
    and the per-kind breakdown is left as it was when the record derived no
    key. *)
Theorem remote_skips_go_to_first_key_kind
    (paper : PaperItem) (s : RunState) (keys : list IdentityKey) (w : World)
    (result : PyVal) (created_n skipped_n failed_n : Z) :
  paper_export_identity_keys paper = Returned keys ->
  find_matched_key keys (existing_key_set s) = None ->
  create_item self
    (_paper_to_zotero_item (today (world (machine s))) paper collection_keys)
    (world (machine s)) = (w, Returned result) ->
  _extract_create_result_counts result = (created_n, skipped_n, failed_n) ->
  0 < skipped_n ->
  let s' := export_step self collection_keys paper s in
  skipped_count s' = skipped_count s + skipped_n /\
  match keys with
  | key :: _ =>
      skipped_by_key s' !! fst key
      = Some (default 0 (skipped_by_key s !! fst key) + skipped_n) /\
      (forall kind, kind <> fst key ->
         skipped_by_key s' !! kind = skipped_by_key s !! kind)
  | [] => skipped_by_key s' = skipped_by_key s
  end.
Proof.
  intros Hk Hf Hc Hn Hpos s'.
  destruct (step_create self collection_keys _ _ _ _ _ _ _ _ Hk Hf Hc Hn)
    as (_ & _ & Hskip & Hby & _).
  fold s' in Hskip, Hby. apply Z.ltb_lt in Hpos. rewrite Hpos in Hby.
  split; [exact Hskip|].
  destruct keys as [|key keys']; [exact Hby|].
  rewrite Hby. unfold bump. split.
  - apply lookup_insert_eq.
  - intros kind Hne. now apply lookup_insert_ne.
Qed.

End ExportClaims.

(** ** Concrete runs of the export loop *)

Lemma skip_on_first_matching_key_witness :
  let paper :=
    demo_paper "Existing Paper title variant"
      (Some "https://doi.org/10.1234/EXISTING")
      (Some "https://example.com/paper-abc?utm_source=mail") in
  let keys :=
    [("doi", "10.1234/existing"); ("url", "https://example.com/paper-abc")] in
  let s :=
    @initial_state demo_host
      ({[ ("url", "https://example.com/paper-abc") ]} : gset IdentityKey)
      demo_machine in
  @paper_export_identity_keys spec_dedup paper = Returned keys /\
  (exists k, In k keys /\ k ∈ existing_key_set s) /\
  skipped_count
    (@export_step demo_host spec_dedup (replying_adapter created_one) None paper s)
  = skipped_count s + 1.
Proof.
  intros paper keys s.
  assert (H1 : @paper_export_identity_keys spec_dedup paper = Returned keys)
    by reflexivity.
  assert (H2 : exists k, In k keys /\ k ∈ existing_key_set s).
  { exists ("url", "https://example.com/paper-abc"). split.
    - right. left. reflexivity.
    - simpl. apply elem_of_singleton. reflexivity. }
  split; [exact H1|]. split; [exact H2|].
  destruct (@skip_on_first_matching_key demo_host spec_dedup
              (replying_adapter created_one) None paper [] s keys H1 H2)
    as (pre & matched & post & _ & _ & _ & Hskip & _).
  exact Hskip.
Defined.

(** C2 as stated fails for records that derive no identity key: two
    identical title-only records are both handed to the create call and
    both counted as created; the second is not skipped. *)
Lemma keyless_duplicates_are_both_created :
  let paper := demo_paper "Untitled draft" None None in
  let zotero_item := _paper_to_zotero_item "2026-01-01" paper None in
  @paper_export_identity_keys spec_dedup paper = Returned [] /\
  @export demo_host spec_dedup (replying_adapter created_one) [paper; paper]
    None demo_machine
  = (@Build_Machine demo_host 2%nat
       [EvCreateItem zotero_item; EvCreateItem zotero_item],
     Returned
       {| res_success_count := 2;
          res_total := 2;
          res_skipped_count := 0;
          res_skipped_by_key := initial_by_key;
          res_failures := [] |}).
Proof. split; vm_compute; reflexivity. Qed.

Lemma index_grows_and_later_duplicate_is_skipped_witness :
  let paper := demo_paper "A" (Some "10.1/X") None in
  let other := demo_paper "B" (Some "10.1/y") None in
  let s := @initial_state demo_host ∅ demo_machine in
  let self := replying_adapter created_one in
  let s2 :=
    @export_loop demo_host spec_dedup self None [other]
      (@export_step demo_host spec_dedup self None paper s) in
  skipped_count (@export_step demo_host spec_dedup self None paper s2)
  = skipped_count s2 + 1 /\
  machine (@export_step demo_host spec_dedup self None paper s2) = machine s2.
Proof.
  intros paper other s self s2.
  destruct (@index_grows_and_later_duplicate_is_skipped demo_host spec_dedup
              self None paper [other] s
              [("doi", "10.1/x")] [("doi", "10.1/x")] ("doi", "10.1/x")
              1%nat created_one 1 0 0)
    as (_ & _ & _ & _ & _ & Hskip & _ & Hm & _);
    try reflexivity; try (left; reflexivity).
  split; [exact Hskip|exact Hm].
Defined.

Lemma unrecognized_result_counts_nothing_witness :
  let paper := demo_paper "Unknown Result Shape Paper" (Some "10.8888/unknown-shape") None in
  let s := @initial_state demo_host ∅ demo_machine in
  (exists d,
     ok_true = PDict d /\
     forall field,
       In field recognized_count_fields -> dict_lookup d field = None) /\
  _extract_create_result_counts ok_true = (0, 0, 0) /\
  success_count
    (@export_step demo_host spec_dedup (replying_adapter ok_true) None paper s)
  = 0 /\
  failures
    (@export_step demo_host spec_dedup (replying_adapter ok_true) None paper s)
  = [].
Proof.
  intros paper s.
  assert (Hshape : exists d,
            ok_true = PDict d /\
            forall field,
              In field recognized_count_fields -> dict_lookup d field = None).
  { exists [("ok", PBool true)]. split; [reflexivity|].
    intros field Hin. unfold recognized_count_fields in Hin. simpl in Hin.
    repeat (destruct Hin as [<-|Hin]; [reflexivity|]). destruct Hin. }
  destruct (@unrecognized_result_counts_nothing demo_host spec_dedup
              (replying_adapter ok_true) None ok_true paper s
              [("doi", "10.8888/unknown-shape")] 1%nat (or_intror Hshape))
    as (Hn & Hstep).
  destruct (Hstep eq_refl eq_refl eq_refl) as (Hsucc & Hfail & _).
  split; [exact Hshape|]. split; [exact Hn|]. split; [exact Hsucc|exact Hfail].
Defined.

(** C4 on the code: the result of the repository's own test
    [test_zotero_export_counts_successful_map_shape] is read as no item
    created, and the export of one new paper against it reports
    success_count 0 where the test expects 1. *)
Theorem successful_map_is_not_counted :
  _extract_create_result_counts successful_map = (0, 0, 0) /\
  let paper :=
    demo_paper "Successful Map Shape" (Some "10.1111/successful-shape") None in
  exists m r,
    @export demo_host spec_dedup (replying_adapter successful_map) [paper]
      (Some "ABCD1234") demo_machine = (m, Returned r) /\
    res_success_count r = 0 /\ res_skipped_count r = 0 /\ res_failures r = [].
Proof.
  split; [reflexivity|].
  intros paper. eexists. eexists. split; [vm_compute; reflexivity|].
  repeat split.
Qed.

(** C7 as stated fails for a record that derives no identity key: the
    remote-side skip is added to the overall counter, but no "unknown"
    entry appears and no per-kind counter moves. *)
Lemma keyless_remote_skip_is_not_attributed :
  let paper := demo_paper "Untitled draft" None None in
  @paper_export_identity_keys spec_dedup paper = Returned [] /\
  exists m r,
    @export demo_host spec_dedup (replying_adapter skipped_one) [paper] None
      demo_machine = (m, Returned r) /\
    res_skipped_count r = 1 /\
    res_skipped_by_key r !! "unknown" = None /\
    res_skipped_by_key r = initial_by_key.
Proof.
  split; [reflexivity|].
  eexists. eexists. split; [vm_compute; reflexivity|].
  repeat split.
Qed.

Lemma remote_skips_go_to_first_key_kind_witness :
  let paper := demo_paper "Duplicate In Runtime Check" (Some "10.7777/dup") None in
  let s := @initial_state demo_host ∅ demo_machine in
  let s' :=
    @export_step demo_host spec_dedup (replying_adapter skipped_one) None paper s in
  0 < 1 /\
  skipped_count s' = skipped_count s + 1 /\
  skipped_by_key s' !! "doi" = Some (default 0 (skipped_by_key s !! "doi") + 1).
Proof.
  intros paper s s'.
  destruct (@remote_skips_go_to_first_key_kind demo_host spec_dedup
              (replying_adapter skipped_one) None paper s
              [("doi", "10.7777/dup")] 1%nat skipped_one 0 1 0
              eq_refl eq_refl eq_refl eq_refl eq_refl)
    as (Hskip & Hby & _).
  split; [reflexivity|]. split; [exact Hskip|exact Hby].
Defined.

(** ** Collection resolution *)

Section Resolution.

Context {host : Host}.
Variable self : ZoteroAdapter.

(** Collection resolution never raises. *)
Lemma resolve_returns (collection_id : option string) (m : Machine) :
  exists m' r,
    _resolve_collection_key self collection_id m = (m', Returned r).
Proof.
  unfold _resolve_collection_key.
  destruct (negb (nonempty collection_id)); [unfold ret; eauto|].
  destruct (String.eqb (strip (default "" collection_id)) "");
    [unfold ret; eauto|].
  destruct (_looks_like_collection_key _); [unfold ret; eauto|].
  destruct (getattr_callable (_api_client self) "get_collections")
    as [get_collections|]; [|unfold ret; eauto].
  unfold bind, try_except.
  destruct (_invoke_method get_collections [] m) as [m1 [e|r]]; simpl;
    [unfold ret; eauto|].
  destruct r; try (unfold ret; eauto).
  destruct (scan_collections _ l None) as [exact_match_key casefold_match_key].
  destruct (nonempty _); unfold ret; eauto.
Qed.

Lemma looks_like_collection_key_spec (value : string) :
  _looks_like_collection_key value = true <->
  String.length value = 8%nat /\
  Forall (fun c => is_alnum c = true) (list_ascii_of_string value).
Proof.
  unfold _looks_like_collection_key.
  rewrite andb_true_iff, Nat.eqb_eq, forallb_forall, List.Forall_forall.
  reflexivity.
Qed.

Lemma key_shaped_nonempty (collection_id : string) :
  _looks_like_collection_key (strip collection_id) = true ->
  nonempty (Some collection_id) = true /\
  String.eqb (strip collection_id) "" = false.
Proof.
  intros Hk. split.
  - simpl. destruct (String.eqb_spec collection_id "") as [->|]; auto.
  - destruct (String.eqb_spec (strip collection_id) "") as [Heq|]; auto.
    rewrite Heq in Hk. discriminate.
Qed.

(** C10. An identifier whose trimmed value is exactly 8 characters of
    [A-Za-z0-9] is resolved to that trimmed value with the machine left as
    it was: nothing is invoked on the client. Conversely, whenever
    resolution does invoke something, the trimmed identifier does not have
    that shape. *)
Theorem key_shaped_identifier_is_returned_as_is
    (collection_id : string) (m : Machine) :
  _looks_like_collection_key (strip collection_id) = true ->
  _resolve_collection_key self (Some collection_id) m
  = (m, Returned (Some (strip collection_id))) /\
  (String.length (strip collection_id) = 8%nat /\
   Forall (fun c => is_alnum c = true)
     (list_ascii_of_string (strip collection_id))) /\
  (forall other m0 m1 r,
     _resolve_collection_key self (Some other) m0 = (m1, r) ->
     trace m1 <> trace m0 ->
     _looks_like_collection_key (strip other) = false).
Proof.
  intros Hk.
  assert (Hshape : forall cid m0,
    _looks_like_collection_key (strip cid) = true ->
    _resolve_collection_key self (Some cid) m0
    = (m0, Returned (Some (strip cid)))).
  { intros cid m0 Hc. destruct (key_shaped_nonempty _ Hc) as [Hne Hs].
    unfold _resolve_collection_key.
    change (default "" (Some cid)) with cid. rewrite Hne.
    cbn [negb]. rewrite Hs, Hc. reflexivity. }
  split; [now apply Hshape|].
  split; [now apply looks_like_collection_key_spec|].
  intros other m0 m1 r Hres Htrace.
  destruct (_looks_like_collection_key (strip other)) eqn:Ho; auto.
  rewrite (Hshape _ m0 Ho) in Hres. inversion Hres; subst. now elim Htrace.
Qed.

(** Without a callable [get_collections], an identifier that does not look
    like a key is passed through. *)
Lemma resolve_without_lookup (collection_id : string) (m : Machine) :
  strip collection_id <> "" ->
  _looks_like_collection_key (strip collection_id) = false ->
  getattr_callable (_api_client self) "get_collections" = None ->
  _resolve_collection_key self (Some collection_id) m
  = (m, Returned (Some (strip collection_id))).
Proof.
  intros Hs Hk Hg. unfold _resolve_collection_key.
  assert (Hne : nonempty (Some collection_id) = true).
  { simpl. destruct (String.eqb_spec collection_id "") as [->|]; auto. }
  change (default "" (Some collection_id)) with collection_id.
  rewrite Hne. cbn [negb].
  apply String.eqb_neq in Hs. rewrite Hs, Hk, Hg. reflexivity.
Qed.

End Resolution.

Lemma key_shaped_identifier_is_returned_as_is_witness :
  _looks_like_collection_key (strip " 866TNWZ9 ") = true /\
  @_resolve_collection_key demo_host (replying_adapter created_one)
    (Some " 866TNWZ9 ") demo_machine
  = (demo_machine, Returned (Some "866TNWZ9")).
Proof.
  split; [reflexivity|].
  exact (proj1 (@key_shaped_identifier_is_returned_as_is demo_host
                  (replying_adapter created_one) " 866TNWZ9 " demo_machine
                  eq_refl)).
Defined.

(** C8 on the code: with a client that has no [get_collections] at all, as
    in the repository's own test
    [test_zotero_export_collection_name_requires_resolution], resolving the
    name "00_INBOXS_AA" returns the name; nothing is raised. *)
Theorem unresolvable_name_is_passed_through :
  _looks_like_collection_key "00_INBOXS_AA" = false /\
  getattr_callable (_api_client (replying_adapter created_one)) "get_collections"
  = None /\
  @_resolve_collection_key demo_host (replying_adapter created_one)
    (Some "00_INBOXS_AA") demo_machine
  = (demo_machine, Returned (Some "00_INBOXS_AA")).
Proof. repeat split. Qed.

(** ** The remote record coercer on flat dicts *)

Section FlatItems.

Context {host : Host}.

Lemma dict_mem_false (d : PyDict) (k : string) :
  dict_mem d k = false <-> dict_lookup d k = None.
Proof. unfold dict_mem. destruct (dict_lookup d k); split; congruence. Qed.

(** The date step keeps what [mapped] already holds. *)
Lemma lookup_date_step_kept (date_value v : PyVal) (k : string) (mapped : PyDict) :
  dict_lookup mapped k = Some v ->
  dict_lookup
    (if truthy date_value && negb (dict_mem mapped "date")
     then dict_set "date" (PStr (py_str date_value)) mapped else mapped) k
  = Some v.
Proof.
  intros Hl.
  destruct (truthy date_value && negb (dict_mem mapped "date")) eqn:E; auto.
  destruct (String.eqb_spec "date" k) as [<-|Hne].
  - rewrite (dict_mem_lookup _ _ _ Hl) in E. now rewrite andb_false_r in E.
  - now rewrite dict_lookup_set_ne.
Qed.

(** Bindings already in [mapped] survive the top-level merge. *)
Lemma merge_top_level_keeps (item mapped : PyDict) (k : string) (v : PyVal) :
  dict_lookup mapped k = Some v ->
  dict_lookup (merge_top_level item mapped) k = Some v.
Proof.
  intros Hl. unfold merge_top_level.
  repeat (apply lookup_set_if_new_kept).
  apply lookup_date_step_kept.
  now repeat (apply lookup_set_if_new_kept).
Qed.

(** The [date] that the top-level merge writes when [mapped] has none. *)
Lemma merge_top_level_date (item mapped : PyDict) :
  dict_lookup mapped "date" = None ->
  dict_lookup (merge_top_level item mapped) "date"
  = if truthy (flat_date_value item)
    then Some (PStr (py_str (flat_date_value item))) else None.
Proof.
  intros Hl. unfold merge_top_level.
  rewrite !lookup_set_if_new_other by discriminate.
  set (mapped2 := set_if_new "DOI" _ (set_if_new "title" _ mapped)).
  assert (H2 : dict_lookup mapped2 "date" = None).
  { subst mapped2. now rewrite !lookup_set_if_new_other by discriminate. }
  assert (Hm : dict_mem mapped2 "date" = false) by now apply dict_mem_false.
  rewrite Hm. simpl negb. rewrite andb_true_r.
  destruct (truthy (flat_date_value item)); auto.
  apply dict_lookup_set_eq.
Qed.

(** A field that [mapped] lacks is written exactly when the value is
    truthy. *)
Lemma lookup_set_if_new_fresh (key : string) (value : PyVal) (mapped : PyDict) :
  dict_lookup mapped key = None ->
  dict_lookup (set_if_new key value mapped) key
  = if truthy value then Some value else None.
Proof.
  intros Hl. unfold set_if_new.
  assert (Hm : dict_mem mapped key = false) by now apply dict_mem_false.
  rewrite Hm. cbn [negb]. rewrite andb_true_r.
  destruct (truthy value); [apply dict_lookup_set_eq|exact Hl].
Qed.

(** The date step touches no other field. *)
Lemma lookup_date_step_other (date_value : PyVal) (k : string) (mapped : PyDict) :
  "date" <> k ->
  dict_lookup
    (if truthy date_value && negb (dict_mem mapped "date")
     then dict_set "date" (PStr (py_str date_value)) mapped else mapped) k
  = dict_lookup mapped k.
Proof.
  intros Hne.
  destruct (truthy date_value && negb (dict_mem mapped "date")); auto.
  now rewrite dict_lookup_set_ne.
Qed.

(** The [title] that the top-level merge writes when [mapped] has none. *)
Lemma merge_top_level_title (item mapped : PyDict) :
  dict_lookup mapped "title" = None ->
  dict_lookup (merge_top_level item mapped) "title"
  = if truthy (dict_get item "title") then Some (dict_get item "title")
    else None.
Proof.
  intros Hl. unfold merge_top_level.
  rewrite !lookup_set_if_new_other by discriminate.
  rewrite lookup_date_step_other by discriminate.
  rewrite lookup_set_if_new_other by discriminate.
  now apply lookup_set_if_new_fresh.
Qed.

(** The [DOI] that the top-level merge writes when [mapped] has none. *)
Lemma merge_top_level_doi (item mapped : PyDict) :
  dict_lookup mapped "DOI" = None ->
  let doi := py_or (dict_get item "DOI") (dict_get item "doi") in
  dict_lookup (merge_top_level item mapped) "DOI"
  = if truthy doi then Some doi else None.
Proof.
  intros Hl doi. unfold merge_top_level.
  rewrite !lookup_set_if_new_other by discriminate.
  rewrite lookup_date_step_other by discriminate.
  apply lookup_set_if_new_fresh.
  now rewrite lookup_set_if_new_other by discriminate.
Qed.

(** The [creators] that the top-level merge writes when [mapped] has none. *)
Lemma merge_top_level_creators (item mapped : PyDict) :
  dict_lookup mapped "creators" = None ->
  let creators_value :=
    if truthy (dict_get item "creators") then dict_get item "creators"
    else dict_get item "authors" in
  let creators := PList (_coerce_creators creators_value) in
  dict_lookup (merge_top_level item mapped) "creators"
  = if truthy creators then Some creators else None.
Proof.
  intros Hl creators_value creators. unfold merge_top_level.
  rewrite lookup_set_if_new_other by discriminate.
  apply lookup_set_if_new_fresh.
  rewrite lookup_date_step_other by discriminate.
  now rewrite !lookup_set_if_new_other by discriminate.
Qed.

(** The [url] that the top-level merge writes when [mapped] has none. *)
Lemma merge_top_level_url (item mapped : PyDict) :
  dict_lookup mapped "url" = None ->
  dict_lookup (merge_top_level item mapped) "url"
  = if truthy (dict_get item "url") then Some (dict_get item "url") else None.
Proof.
  intros Hl. unfold merge_top_level.
  apply lookup_set_if_new_fresh.
  rewrite lookup_set_if_new_other by discriminate.
  rewrite lookup_date_step_other by discriminate.
  now rewrite !lookup_set_if_new_other by discriminate.
Qed.

(** The top-level merge writes no field but its five. *)
Lemma merge_top_level_other (item mapped : PyDict) (k : string) :
  ~ In k ["title"; "DOI"; "date"; "creators"; "url"] ->
  dict_lookup (merge_top_level item mapped) k = dict_lookup mapped k.
Proof.
  intros Hk. simpl in Hk. unfold merge_top_level.
  rewrite !lookup_set_if_new_other by tauto.
  rewrite lookup_date_step_other by tauto.
  now rewrite !lookup_set_if_new_other by tauto.
Qed.

Lemma coerce_flat_unfold (item : PyDict) :
  is_dict (dict_get item "data") = false ->
  match dict_get item "raw_data" with
  | PDict rd => is_dict (dict_get rd "data") = false
  | _ => True
  end ->
  _coerce_flat_item_dict item
  = let mapped :=
      merge_top_level item
        (match dict_get item "raw_data" with
         | PDict rd => dict_update [] rd
         | _ => []
         end) in
    match mapped with
    | [] => item
    | _ => [("data", PDict mapped)]
    end.
Proof.
  intros Hd Hr. unfold _coerce_flat_item_dict.
  destruct (dict_get item "data"); try discriminate;
    destruct (dict_get item "raw_data") as [| | | | |rd|]; try reflexivity;
    simpl in Hr; simpl; destruct (dict_get _ "data"); try discriminate;
    reflexivity.
Qed.

Lemma lookup_Some_nonempty (d : PyDict) (k : string) (v : PyVal) :
  dict_lookup d k = Some v -> d <> [].
Proof. now destruct d. Qed.

(** C9. Coercing a flat item dict (no nested [data], and a [raw_data] that
    is absent or a flat mapping): every binding of [raw_data] is in the
    result's [data] with the value [raw_data] gave it, whatever the
    top-level field of that name holds. When [raw_data] brings no [date]:
    a truthy top-level [date] is stored as its string, whatever [year]
    holds; [year] is stored, as its string, when [date] is missing or
    empty and [year] is not None and not blank; and no [date] is stored
    when both are missing. Each of [title], [DOI], [creators] and [url] that
    [raw_data] does not bring is written from the top level exactly when
    the top-level value is truthy: [title] and [url] as they are, [DOI] from
    [DOI] or else [doi], [creators] as the coerced [creators] or else
    [authors]. No other field is added, and an item from which nothing is
    gathered is returned as it is. *)
Theorem flat_item_merge_is_first_write_wins (item : PyDict) :
  is_dict (dict_get item "data") = false ->
  match dict_get item "raw_data" with
  | PDict rd => is_dict (dict_get rd "data") = false
  | _ => True
  end ->
  let coerced := _coerce_flat_item_dict item in
  let raw_lookup k :=
    match dict_get item "raw_data" with
    | PDict rd => dict_lookup rd k
    | _ => None
    end in
  let date_value := dict_get item "date" in
  let year := dict_get item "year" in
  let written k v :=
    (truthy v = true ->
     exists mapped,
       coerced = [("data", PDict mapped)] /\ dict_lookup mapped k = Some v) /\
    (truthy v = false ->
     forall mapped,
       coerced = [("data", PDict mapped)] -> dict_lookup mapped k = None) in
  (forall k v,
     raw_lookup k = Some v ->
     exists mapped,
       coerced = [("data", PDict mapped)] /\ dict_lookup mapped k = Some v) /\
  (raw_lookup "date" = None ->
   (truthy date_value = true ->
    exists mapped,
      coerced = [("data", PDict mapped)] /\
      dict_lookup mapped "date" = Some (PStr (py_str date_value))) /\
   (truthy date_value = false ->
    is_none year = false -> strip (py_str year) <> "" ->
    exists mapped,
      coerced = [("data", PDict mapped)] /\
      dict_lookup mapped "date" = Some (PStr (py_str year))) /\
   (truthy date_value = false ->
    is_none year = true \/ strip (py_str year) = "" ->
    forall mapped,
      coerced = [("data", PDict mapped)] -> dict_lookup mapped "date" = None)) /\
  (raw_lookup "title" = None -> written "title" (dict_get item "title")) /\
  (raw_lookup "DOI" = None ->
   written "DOI" (py_or (dict_get item "DOI") (dict_get item "doi"))) /\
  (raw_lookup "creators" = None ->
   written "creators"
     (PList
        (_coerce_creators
           (if truthy (dict_get item "creators") then dict_get item "creators"
            else dict_get item "authors")))) /\
  (raw_lookup "url" = None -> written "url" (dict_get item "url")) /\
  (forall k,
     ~ In k ["title"; "DOI"; "date"; "creators"; "url"] ->
     raw_lookup k = None ->
     forall mapped,
       coerced = [("data", PDict mapped)] -> dict_lookup mapped k = None) /\
  ((forall mapped, coerced <> [("data", PDict mapped)]) -> coerced = item).
Proof.
  intros Hd Hr coerced raw_lookup date_value year written.
  subst written coerced. rewrite (coerce_flat_unfold item Hd Hr).
  cbv beta zeta.
  set (mapped0 := match dict_get item "raw_data" with
                  | PDict rd => dict_update [] rd
                  | _ => []
                  end).
  assert (H0 : forall k, dict_lookup mapped0 k = raw_lookup k).
  { intros k. subst mapped0 raw_lookup. simpl.
    destruct (dict_get item "raw_data"); try reflexivity.
    rewrite dict_lookup_update. now destruct (dict_lookup d k). }
  assert (Hdata : forall k v,
    dict_lookup (merge_top_level item mapped0) k = Some v ->
    exists mapped,
      match merge_top_level item mapped0 with
      | [] => item
      | _ => [("data", PDict (merge_top_level item mapped0))]
      end = [("data", PDict mapped)] /\ dict_lookup mapped k = Some v).
  { intros k v Hl. exists (merge_top_level item mapped0). split; auto.
    destruct (merge_top_level item mapped0); [discriminate|reflexivity]. }
  assert (Habsent : forall k,
    dict_lookup (merge_top_level item mapped0) k = None ->
    forall mapped,
      match merge_top_level item mapped0 with
      | [] => item
      | _ => [("data", PDict (merge_top_level item mapped0))]
      end = [("data", PDict mapped)] -> dict_lookup mapped k = None).
  { intros k Hl mapped Heq.
    destruct (merge_top_level item mapped0) as [|kv tl] eqn:Em.
    - rewrite Heq in Hd. simpl in Hd. discriminate.
    - inversion Heq; subst. exact Hl. }
  assert (Hwritten : forall k v,
    dict_lookup (merge_top_level item mapped0) k
    = (if truthy v then Some v else None) ->
    (truthy v = true ->
     exists mapped,
       match merge_top_level item mapped0 with
       | [] => item
       | _ => [("data", PDict (merge_top_level item mapped0))]
       end = [("data", PDict mapped)] /\ dict_lookup mapped k = Some v) /\
    (truthy v = false ->
     forall mapped,
       match merge_top_level item mapped0 with
       | [] => item
       | _ => [("data", PDict (merge_top_level item mapped0))]
       end = [("data", PDict mapped)] -> dict_lookup mapped k = None)).
  { intros k v Hl. split; intros Ht; rewrite Ht in Hl.
    - now apply Hdata.
    - now apply Habsent. }
  split.
  { intros k v Hraw. apply Hdata. apply merge_top_level_keeps.
    now rewrite H0. }
  split.
  { intros Hnodate.
    assert (Hdate := merge_top_level_date item mapped0).
    rewrite H0 in Hdate. specialize (Hdate Hnodate).
    unfold flat_date_value in Hdate. fold date_value year in Hdate.
    split; [|split].
    - intros Ht. rewrite Ht in Hdate. rewrite Ht in Hdate. now apply Hdata.
    - intros Ht Hy Hs. rewrite Ht, Hy in Hdate. simpl negb in Hdate.
      apply String.eqb_neq in Hs. rewrite Hs in Hdate. simpl in Hdate.
      assert (Hne : String.eqb (py_str year) "" = false).
      { apply String.eqb_neq. apply strip_nonempty.
        now apply String.eqb_neq. }
      rewrite Hne in Hdate. simpl in Hdate. now apply Hdata.
    - intros Ht Hy.
      assert (Hfalse : (if negb (is_none year)
                           && negb (String.eqb (strip (py_str year)) "")
                        then PStr (py_str year) else date_value) = date_value).
      { destruct Hy as [Hy|Hy].
        - now rewrite Hy.
        - rewrite Hy. simpl. now rewrite andb_false_r. }
      rewrite Ht, Hfalse, Ht in Hdate. now apply Habsent. }
  split.
  { intros Hraw. apply Hwritten. apply merge_top_level_title.
    now rewrite H0. }
  split.
  { intros Hraw. apply Hwritten. apply merge_top_level_doi. now rewrite H0. }
  split.
  { intros Hraw. apply Hwritten. apply merge_top_level_creators.
    now rewrite H0. }
  split.
  { intros Hraw. apply Hwritten. apply merge_top_level_url. now rewrite H0. }
  split.
  { intros k Hk Hraw. apply Habsent.
    rewrite (merge_top_level_other item mapped0 k Hk). now rewrite H0. }
  intros Hnot.
  destruct (merge_top_level item mapped0) as [|kv tl]; [reflexivity|].
  exfalso. now apply (Hnot (kv :: tl)).
Qed.

End FlatItems.

Lemma flat_item_merge_is_first_write_wins_witness :
  is_dict (dict_get flat_item "data") = false /\
  is_dict (dict_get [("title", PStr "Raw")] "data") = false /\
  (exists mapped,
     @_coerce_flat_item_dict demo_host flat_item = [("data", PDict mapped)] /\
     dict_lookup mapped "title" = Some (PStr "Raw")) /\
  (exists mapped,
     @_coerce_flat_item_dict demo_host flat_item = [("data", PDict mapped)] /\
     dict_lookup mapped "date" = Some (PStr "2025")).
Proof.
  split; [reflexivity|]. split; [reflexivity|].
  destruct (@flat_item_merge_is_first_write_wins demo_host flat_item
              eq_refl eq_refl) as (Hraw & Hdate & _).
  split.
  - exact (Hraw "title" (PStr "Raw") eq_refl).
  - destruct (Hdate eq_refl) as (_ & Hyear & _).
    apply Hyear; [reflexivity|reflexivity|discriminate].
Defined.

(** ** Index preloading and the whole export *)

Section WholeExport.

Context {host : Host} {dedup : Dedup}.
Variable self : ZoteroAdapter.




(** The [try]/[except] around the preload in [export] always gives a set. *)
Lemma guarded_preload_returns (m : Machine) :
  exists m' index,
    try_except (_load_existing_identity_keys self) (fun _ => ret ∅) m
    = (m', Returned index).
Proof.
  unfold try_except.
  destruct (_load_existing_identity_keys self m) as [m' [e|index]];
    unfold ret; eauto.
Qed.


(** [export], once collection resolution and the guarded preload are known. *)
Lemma export_unfold (papers : list PaperItem) (collection_id : option string)
    (m m1 m2 : Machine) (resolved : option string) (index : gset IdentityKey) :
  zotero_available = true ->
  _resolve_collection_key self collection_id m = (m1, Returned resolved) ->
  try_except (_load_existing_identity_keys self) (fun _ => ret ∅) m1
  = (m2, Returned index) ->
  let collection_keys :=
    if nonempty resolved then Some [default "" resolved] else None in
  let s := export_loop self collection_keys papers (initial_state index m2) in
  export self papers collection_id m = (machine s, Returned (result_of papers s)).
Proof.
  intros Hz Hr Hl ck s. unfold export. rewrite Hz. cbn [negb].
  unfold bind. rewrite Hr. fold ck. rewrite Hl. reflexivity.
Qed.

(** With zotero-mcp available, [export] returns a result. *)
Lemma export_returns (papers : list PaperItem) (collection_id : option string)
    (m : Machine) :
  zotero_available = true ->
  exists m' r,
    export self papers collection_id m = (m', Returned r) /\
    res_total r = length papers.
Proof.
  intros Hz.
  destruct (resolve_returns self collection_id m) as (m1 & resolved & Hr).
  destruct (guarded_preload_returns m1) as (m2 & index & Hl).
  rewrite (export_unfold papers collection_id m m1 m2 resolved index Hz Hr Hl).
  eexists. eexists. split; reflexivity.
Qed.


(** C5. With zotero-mcp available the export returns: collection resolution
    returns, the guarded preload gives an index, and what [export] returns
    is the result of the loop run from that index over all the records, with
    the number of input records as its total and the loop's failure list as
    its failures. Whenever the processing of a record of the input raises,
    the run goes on with the records that follow, and the failure list of
    the returned result holds, right after the entries recorded before that
    record, one entry with the record's title and the exception's message.
    In a turn the entry is appended to what the record's processing left,
    and the loop goes on. The handler is reached from key derivation, from
    the create call and from the key derivation of the outgoing payload.
    Entries recorded earlier are kept. *)
Theorem per_record_exceptions_are_recorded
    (papers : list PaperItem) (collection_id : option string) (m : Machine) :
  zotero_available = true ->
  (exists resolved m1 m2 index,
     _resolve_collection_key self collection_id m = (m1, Returned resolved) /\
     try_except (_load_existing_identity_keys self) (fun _ => ret ∅) m1
     = (m2, Returned index) /\
     let ck := if nonempty resolved then Some [default "" resolved] else None in
     let run before := export_loop self ck before (initial_state index m2) in
     let r := result_of papers (run papers) in
     export self papers collection_id m = (machine (run papers), Returned r) /\
     res_total r = length papers /\
     res_failures r = failures (run papers) /\
     (forall before paper after s' e,
        papers = (before ++ paper :: after)%list ->
        process_paper self ck paper (run before) = (s', Raised e) ->
        run papers
        = export_loop self ck after
            (append_failure (title paper) (exn_msg e) s') /\
        exists later,
          res_failures r
          = (failures (run before) ++ (title paper, exn_msg e) :: later)%list)) /\
  (forall ck paper rest s s' e,
     process_paper self ck paper s = (s', Raised e) ->
     let s'' := export_step self ck paper s in
     failures s'' = (failures s' ++ [(title paper, exn_msg e)])%list /\
     success_count s'' = success_count s' /\
     skipped_count s'' = skipped_count s' /\
     machine s'' = machine s' /\
     export_loop self ck (paper :: rest) s = export_loop self ck rest s'') /\
  (forall ck paper s e,
     paper_export_identity_keys paper = Raised e ->
     process_paper self ck paper s = (s, Raised e)) /\
  (forall ck paper s keys w e,
     paper_export_identity_keys paper = Returned keys ->
     find_matched_key keys (existing_key_set s) = None ->
     create_item self
       (_paper_to_zotero_item (today (world (machine s))) paper ck)
       (world (machine s)) = (w, Raised e) ->
     exists s', process_paper self ck paper s = (s', Raised e)) /\
  (forall ck paper s keys w result created_n skipped_n failed_n e,
     paper_export_identity_keys paper = Returned keys ->
     find_matched_key keys (existing_key_set s) = None ->
     create_item self
       (_paper_to_zotero_item (today (world (machine s))) paper ck)
       (world (machine s)) = (w, Returned result) ->
     _extract_create_result_counts result = (created_n, skipped_n, failed_n) ->
     0 < created_n ->
     zotero_data_identity_keys
       (PDict (_paper_to_zotero_item (today (world (machine s))) paper ck))
     = Raised e ->
     exists s', process_paper self ck paper s = (s', Raised e)) /\
  (forall ck paper s,
     exists more,
       failures (export_step self ck paper s) = (failures s ++ more)%list).
Proof.
  intros Hz. split.
  { destruct (resolve_returns self collection_id m) as (m1 & resolved & Hr).
    destruct (guarded_preload_returns m1) as (m2 & index & Hl).
    exists resolved, m1, m2, index.
    split; [exact Hr|]. split; [exact Hl|]. intros ck run r.
    split; [exact (export_unfold papers collection_id m m1 m2 resolved index
                     Hz Hr Hl)|].
    split; [reflexivity|]. split; [reflexivity|].
    intros before paper after s' e Hpapers Hp.
    assert (Hrun : run papers
                   = export_loop self ck after
                       (append_failure (title paper) (exn_msg e) s')).
    { subst run. cbv beta. rewrite Hpapers, export_loop_app.
      cbn [export_loop]. unfold export_step. now rewrite Hp. }
    split; [exact Hrun|].
    destruct (loop_failures_grow self ck after
                (append_failure (title paper) (exn_msg e) s')) as [later Hlater].
    exists later. subst r. cbn [res_failures result_of].
    rewrite Hrun, Hlater. cbn [failures append_failure].
    rewrite (process_raise_keeps_failures self ck paper _ _ _ Hp).
    now rewrite <- app_assoc. }
  split.
  { intros ck paper rest s s' e Hp s''. subst s''. unfold export_step.
    rewrite Hp. simpl. repeat split; auto.
    unfold export_step. now rewrite Hp. }
  split.
  { intros ck paper s e Hk. unfold process_paper, bind, lift_outcome.
    now rewrite Hk. }
  split.
  { intros ck paper s keys w e Hk Hf Hc.
    unfold process_paper, bind, lift_outcome, get, call_create_item.
    rewrite Hk, Hf, Hc. eauto. }
  split.
  { intros ck paper s keys w result c sk f e Hk Hf Hc Hn Hpos Hzk.
    unfold process_paper, bind, lift_outcome, get, call_create_item, modify,
      when.
    rewrite Hk, Hf, Hc. simpl. rewrite Hn. apply Z.ltb_lt in Hpos.
    rewrite Hpos, Hzk.
    destruct (0 <? sk); destruct keys; simpl; eauto. }
  intros ck paper s. apply step_failures_grow.
Qed.


End WholeExport.

(** ** Concrete runs of the whole export *)

Lemma per_record_exceptions_are_recorded_witness :
  let boom := {| exn_class := OtherError "HTTPError"; exn_msg := "boom" |} in
  let papers :=
    [demo_paper "A" (Some "10.1/a") None; demo_paper "B" (Some "10.1/b") None] in
  @zotero_available demo_host = true /\
  exists m' r,
    @export demo_host spec_dedup (failing_adapter boom) papers None demo_machine
    = (m', Returned r) /\
    res_total r = 2%nat /\
    exists later, res_failures r = (("A", "boom") :: later)%list.
Proof.
  intros boom papers. split; [reflexivity|].
  destruct (proj1 (@per_record_exceptions_are_recorded demo_host spec_dedup
                     (failing_adapter boom) papers None demo_machine eq_refl))
    as (resolved & m1 & m2 & index & Hr & Hl & Hrest).
  injection Hr as <- <-. injection Hl as <- <-.
  cbv zeta in Hrest. destruct Hrest as (Hex & Htot & _ & Hrec).
  eexists. eexists. split; [exact Hex|]. split; [exact Htot|].
  destruct (Hrec [] (demo_paper "A" (Some "10.1/a") None)
              [demo_paper "B" (Some "10.1/b") None]
              (set_machine
                 (@Build_Machine demo_host 1%nat
                    [EvCreateItem
                       (_paper_to_zotero_item "2026-01-01"
                          (demo_paper "A" (Some "10.1/a") None) None)])
                 (@initial_state demo_host ∅ demo_machine))
              boom eq_refl) as (_ & later & Hlater);
    [vm_compute; reflexivity|].
  exists later. exact Hlater.
Defined.

(** A create call that raises for every record: both records are tried, both
    failures are recorded with title and message, and the run returns. *)
Example export_records_every_failure :
  let boom := {| exn_class := OtherError "HTTPError"; exn_msg := "boom" |} in
  let papers :=
    [demo_paper "A" (Some "10.1/a") None; demo_paper "B" (Some "10.1/b") None] in
  exists m',
    @export demo_host spec_dedup (failing_adapter boom) papers None demo_machine
    = (m',
       Returned
         {| res_success_count := 0;
            res_total := 2;
            res_skipped_count := 0;
            res_skipped_by_key := initial_by_key;
            res_failures := [("A", "boom"); ("B", "boom")] |}).
Proof. eexists. vm_compute. reflexivity. Qed.





(** The preload fails, and the run still creates the two distinct records
    and skips the repeat of the first. *)
Example export_after_failed_preload :
  let a := demo_paper "A" (Some "10.1/a") None in
  let b := demo_paper "B" (Some "10.1/b") None in
  exists m',
    @export demo_host spec_dedup (unlistable_adapter created_one) [a; b; a]
      None demo_machine
    = (m',
       Returned
         {| res_success_count := 2;
            res_total := 3;
            res_skipped_count := 1;
            res_skipped_by_key := <["doi" := 1]> initial_by_key;
            res_failures := [] |}).
Proof. eexists. vm_compute. reflexivity. Qed.

(** * Further properties of the adapter *)

(** ** The create-result interpreter *)

Lemma count_nonneg (value : PyVal) : 0 <= _count value.
Proof. destruct value; simpl; lia. Qed.

Lemma first_positive_nonneg (result : PyDict) (keys : list string) (n : Z) :
  0 <= n -> 0 <= first_positive result keys n.
Proof.
  intros Hn. induction keys as [|key keys IH]; simpl; auto.
  destruct (as_int (dict_get result key)) as [value|]; auto.
  destruct (0 <? value) eqn:E; auto. apply Z.ltb_lt in E. lia.
Qed.

Lemma extract_counts_nonneg (result : PyVal) :
  0 <= fst (fst (_extract_create_result_counts result)) /\
  0 <= snd (fst (_extract_create_result_counts result)) /\
  0 <= snd (_extract_create_result_counts result).
Proof.
  destruct result as [| | | | |d|]; try (simpl; lia).
  unfold _extract_create_result_counts.
  pose proof (count_nonneg (dict_get d "created")) as Hc.
  pose proof (count_nonneg (dict_get d "skipped_duplicates")) as Hs.
  pose proof (count_nonneg (dict_get d "failed")) as Hf.
  pose proof (count_nonneg (dict_get d "failures")) as Hfs.
  cbv zeta.
  set (failed_n := if _count (dict_get d "failed") =? 0
                   then _count (dict_get d "failures")
                   else _count (dict_get d "failed")).
  assert (Hfn : 0 <= failed_n)
    by (subst failed_n; destruct (_count (dict_get d "failed") =? 0); lia).
  destruct ((_count (dict_get d "created") =? 0)
            && (_count (dict_get d "skipped_duplicates") =? 0)
            && (failed_n =? 0)); cbn [fst snd]; repeat split;
    auto using first_positive_nonneg.
Qed.

(** The three counts read off a create result are never negative, whatever
    the result holds (negative integers are clamped to zero, the named
    alternates are only taken when positive). *)
Theorem create_result_counts_are_nonnegative (result : PyVal)
    (created_n skipped_n failed_n : Z) :
  _extract_create_result_counts result = (created_n, skipped_n, failed_n) ->
  0 <= created_n /\ 0 <= skipped_n /\ 0 <= failed_n.
Proof.
  intros Hn. pose proof (extract_counts_nonneg result) as H.
  now rewrite Hn in H.
Qed.

Lemma create_result_counts_are_nonnegative_witness :
  _extract_create_result_counts
    (PDict [("created", PInt (-3)); ("failed", PBool true)]) = (0, 0, 1) /\
  0 <= 0 /\ 0 <= 0 /\ 0 <= 1.
Proof.
  split; [reflexivity|].
  exact (create_result_counts_are_nonnegative
           (PDict [("created", PInt (-3)); ("failed", PBool true)]) 0 0 1
           eq_refl).
Defined.

Lemma dict_get_set_ne (k k' : string) (v : PyVal) (d : PyDict) :
  k' <> k -> dict_get (dict_set k' v d) k = dict_get d k.
Proof. intros Hne. unfold dict_get. now rewrite dict_lookup_set_ne. Qed.

Lemma extract_primary (result : PyDict) :
  primary_counts result <> (0, 0, 0) ->
  _extract_create_result_counts (PDict result) = primary_counts result.
Proof.
  unfold primary_counts, _extract_create_result_counts. intros Hp.
  set (c := _count (dict_get result "created")) in *.
  set (s := _count (dict_get result "skipped_duplicates")) in *.
  set (f := if _count (dict_get result "failed") =? 0
            then _count (dict_get result "failures")
            else _count (dict_get result "failed")) in *.
  destruct (c =? 0) eqn:Ec; destruct (s =? 0) eqn:Es; destruct (f =? 0) eqn:Ef;
    simpl; auto.
  exfalso. apply Hp. apply Z.eqb_eq in Ec, Es, Ef. congruence.
Qed.

(** No double counting: once one of the primary fields gives a non-zero
    count, setting any of the named alternates ([created_count],
    [success_count], [inserted_count], [skipped_count], [duplicate_count],
    [failed_count], [error_count]) to any value does not change the counts
    read, and those are the primary counts. *)
Theorem alternate_counts_are_ignored_beside_primary_counts
    (result : PyDict) (key : string) (value : PyVal) :
  primary_counts result <> (0, 0, 0) ->
  In key alternate_count_fields ->
  _extract_create_result_counts (PDict (dict_set key value result))
  = _extract_create_result_counts (PDict result) /\
  _extract_create_result_counts (PDict result) = primary_counts result.
Proof.
  intros Hp Hin.
  assert (Hsame : primary_counts (dict_set key value result)
                  = primary_counts result).
  { unfold primary_counts.
    rewrite !dict_get_set_ne; auto;
      intros ->; simpl in Hin; intuition discriminate. }
  split; [|now apply extract_primary].
  rewrite !extract_primary; auto. now rewrite Hsame.
Qed.

Lemma alternate_counts_are_ignored_beside_primary_counts_witness :
  primary_counts created_one_fields <> (0, 0, 0) /\
  In "success_count" alternate_count_fields /\
  _extract_create_result_counts
    (PDict (dict_set "success_count" (PInt 7) created_one_fields))
  = (1, 0, 0).
Proof.
  assert (H1 : primary_counts created_one_fields <> (0, 0, 0)) by discriminate.
  assert (H2 : In "success_count" alternate_count_fields)
    by (right; left; reflexivity).
  split; [exact H1|]. split; [exact H2|].
  destruct (alternate_counts_are_ignored_beside_primary_counts
              created_one_fields "success_count" (PInt 7) H1 H2) as [Hs Hp].
  rewrite Hs. exact Hp.
Defined.

(** ** Bookkeeping of the export loop *)

Lemma by_key_total_comm (j1 j2 : string) (z1 z2 y : Z) :
  z1 + (z2 + y) = z2 + (z1 + y).
Proof. lia. Qed.

Lemma by_key_total_bump (kind : string) (n : Z) (by_key : gmap string Z) :
  by_key_total (bump kind n by_key) = by_key_total by_key + n.
Proof.
  unfold bump, by_key_total.
  destruct (by_key !! kind) as [old|] eqn:Hk; cbn [default from_option id].
  - replace (<[kind := old + n]> by_key)
      with (<[kind := old + n]> (delete kind by_key))
      by apply insert_delete_eq.
    rewrite map_fold_insert_L.
    + rewrite (map_fold_delete_L _ _ kind old by_key).
      * lia.
      * intros. apply by_key_total_comm; auto.
      * assumption.
    + intros. apply by_key_total_comm; auto.
    + apply lookup_delete_eq.
  - rewrite map_fold_insert_L.
    + lia.
    + intros. apply by_key_total_comm; auto.
    + assumption.
Qed.

Section Bookkeeping.

Context {host : Host} {dedup : Dedup}.
Variable self : ZoteroAdapter.
Variable collection_keys : option (list string).

(** What a run keeps true of its counters. *)
Lemma step_keeps_counters (paper : PaperItem) (s : RunState) :
  by_key_total (skipped_by_key s) <= skipped_count s ->
  0 <= success_count s ->
  let s' := export_step self collection_keys paper s in
  by_key_total (skipped_by_key s') <= skipped_count s' /\
  0 <= success_count s' /\
  success_count s <= success_count s' /\
  skipped_count s <= skipped_count s'.
Proof.
  intros Hby Hsucc s'. subst s'.
  destruct (step_cases self collection_keys paper s)
    as [[e Hk]|[(keys & k & Hk & Hf)|[(keys & w & e & Hk & Hf & Hc)
       |(keys & w & result & Hk & Hf & Hc)]]].
  - rewrite (step_keys_raise _ _ _ _ _ Hk). simpl. lia.
  - rewrite (step_skip _ _ _ _ _ _ Hk Hf). simpl.
    rewrite by_key_total_bump. lia.
  - rewrite (step_create_raise _ _ _ _ _ _ _ Hk Hf Hc). simpl. lia.
  - destruct (_extract_create_result_counts result) as [[c sk] f] eqn:Hn.
    pose proof (extract_counts_nonneg result) as Hnn. rewrite Hn in Hnn.
    simpl in Hnn. destruct Hnn as (Hc0 & Hs0 & _).
    destruct (step_create self collection_keys _ _ _ _ _ _ _ _ Hk Hf Hc Hn)
      as (_ & Hs1 & Hs2 & Hs3 & _).
    rewrite Hs1, Hs2, Hs3.
    destruct (0 <? sk); [destruct keys as [|key keys']|];
      rewrite ?by_key_total_bump; lia.
Qed.

Lemma loop_keeps_counters (papers : list PaperItem) (s : RunState) :
  by_key_total (skipped_by_key s) <= skipped_count s ->
  0 <= success_count s ->
  let s' := export_loop self collection_keys papers s in
  by_key_total (skipped_by_key s') <= skipped_count s' /\
  0 <= success_count s' /\
  success_count s <= success_count s' /\
  skipped_count s <= skipped_count s'.
Proof.
  revert s. induction papers as [|p papers IH]; intros s Hby Hsucc; simpl.
  - lia.
  - destruct (step_keeps_counters p s Hby Hsucc) as (H1 & H2 & H3 & H4).
    destruct (IH _ H1 H2) as (H5 & H6 & H7 & H8). lia.
Qed.

(** A turn makes no remote call or exactly one create call. *)
Lemma step_trace (paper : PaperItem) (s : RunState) :
  exists calls,
    trace (machine (export_step self collection_keys paper s))
    = (trace (machine s) ++ calls)%list /\
    (calls = [] \/ exists zotero_item, calls = [EvCreateItem zotero_item]).
Proof.
  destruct (step_cases self collection_keys paper s)
    as [[e Hk]|[(keys & k & Hk & Hf)|[(keys & w & e & Hk & Hf & Hc)
       |(keys & w & result & Hk & Hf & Hc)]]].
  - rewrite (step_keys_raise _ _ _ _ _ Hk). simpl.
    exists []. rewrite app_nil_r. auto.
  - rewrite (step_skip _ _ _ _ _ _ Hk Hf). simpl.
    exists []. rewrite app_nil_r. auto.
  - rewrite (step_create_raise _ _ _ _ _ _ _ Hk Hf Hc). simpl. eauto.
  - destruct (_extract_create_result_counts result) as [[c sk] f] eqn:Hn.
    destruct (step_create self collection_keys _ _ _ _ _ _ _ _ Hk Hf Hc Hn)
      as (Hm & _).
    rewrite Hm. simpl. eauto.
Qed.

(** A turn records no failure or exactly one, under the paper's title. *)
Lemma step_failures (paper : PaperItem) (s : RunState) :
  exists more,
    failures (export_step self collection_keys paper s)
    = (failures s ++ more)%list /\
    (more = [] \/ exists error, more = [(title paper, error)]).
Proof.
  destruct (step_cases self collection_keys paper s)
    as [[e Hk]|[(keys & k & Hk & Hf)|[(keys & w & e & Hk & Hf & Hc)
       |(keys & w & result & Hk & Hf & Hc)]]].
  - rewrite (step_keys_raise _ _ _ _ _ Hk). simpl. eauto.
  - rewrite (step_skip _ _ _ _ _ _ Hk Hf). simpl.
    exists []. rewrite app_nil_r. auto.
  - rewrite (step_create_raise _ _ _ _ _ _ _ Hk Hf Hc). simpl. eauto.
  - destruct (_extract_create_result_counts result) as [[c sk] f] eqn:Hn.
    destruct (step_create self collection_keys _ _ _ _ _ _ _ _ Hk Hf Hc Hn)
      as (_ & _ & _ & _ & _ & Hfail).
    rewrite Hfail. eexists. split; [reflexivity|].
    destruct (0 <? c); [destruct (zotero_data_identity_keys _)|];
      destruct (0 <? f); eauto.
Qed.

(** Over a whole run the overall skip count covers the per-kind breakdown:
    the per-kind counters never add up to more than [skipped_count]; and
    neither [success_count] nor [skipped_count] is ever negative. *)
Theorem skip_breakdown_never_exceeds_skip_count
    (papers : list PaperItem) (index : gset IdentityKey) (m : Machine) :
  let s := export_loop self collection_keys papers (initial_state index m) in
  by_key_total (skipped_by_key s) <= skipped_count s /\
  0 <= success_count s /\
  0 <= skipped_count s.
Proof.
  intros s.
  destruct (loop_keeps_counters papers (initial_state index m))
    as (H1 & H2 & H3 & H4); simpl; try lia.
  - now vm_compute.
  - fold s in H1, H2, H3, H4. simpl in H3, H4. lia.
Qed.

(** The loop makes at most one remote call per record, and every call it
    makes is a create call: the trace after the run is the trace before it
    followed by create events, no more of them than there are records. *)
Theorem loop_makes_at_most_one_create_call_per_record
    (papers : list PaperItem) (s : RunState) :
  exists calls,
    trace (machine (export_loop self collection_keys papers s))
    = (trace (machine s) ++ calls)%list /\
    (length calls <= length papers)%nat /\
    Forall (fun ev => exists zotero_item, ev = EvCreateItem zotero_item) calls.
Proof.
  revert s. induction papers as [|p papers IH]; intros s; simpl.
  - exists []. rewrite app_nil_r. repeat split; auto.
  - destruct (step_trace p s) as (c1 & Ht1 & Hc1).
    destruct (IH (export_step self collection_keys p s)) as (c2 & Ht2 & Hl2 & Hf2).
    exists (c1 ++ c2)%list. rewrite Ht2, Ht1, <- app_assoc.
    split; [reflexivity|]. rewrite length_app. split.
    + destruct Hc1 as [->|[zi ->]]; simpl; lia.
    + apply Forall_app. split; auto.
      destruct Hc1 as [->|[zi ->]]; [constructor|].
      constructor; [now exists zi|constructor].
Qed.

(** The loop records at most one failure entry per record, keeps the entries
    it started with, and every entry it adds carries the title of one of the
    records of the run. *)
Theorem loop_records_at_most_one_failure_per_record
    (papers : list PaperItem) (s : RunState) :
  exists more,
    failures (export_loop self collection_keys papers s)
    = (failures s ++ more)%list /\
    (length more <= length papers)%nat /\
    Forall (fun entry => exists paper, In paper papers /\ fst entry = title paper)
      more.
Proof.
  revert s. induction papers as [|p papers IH]; intros s; simpl.
  - exists []. rewrite app_nil_r. repeat split; auto.
  - destruct (step_failures p s) as (f1 & Hf1 & Hc1).
    destruct (IH (export_step self collection_keys p s)) as (f2 & Hf2 & Hl2 & Hall).
    exists (f1 ++ f2)%list. rewrite Hf2, Hf1, <- app_assoc.
    split; [reflexivity|]. rewrite length_app. split.
    + destruct Hc1 as [->|[err ->]]; simpl; lia.
    + apply Forall_app. split.
      * destruct Hc1 as [->|[err ->]]; [constructor|].
        constructor; [|constructor]. exists p. split; [now left|reflexivity].
      * eapply List.Forall_impl; [|exact Hall].
        intros entry (paper & Hin & Ht). exists paper. split; [now right|exact Ht].
Qed.

End Bookkeeping.

(** ** Resolving collection names *)

Section NameResolution.

Context {host : Host}.
Variable self : ZoteroAdapter.

Lemma scan_collections_app (value : string) (pre rest : list PyVal)
    (casefold_match_key : option string) :
  scan_collections value (pre ++ rest) casefold_match_key
  = match scan_collections value pre casefold_match_key with
    | (Some key, c) => (Some key, c)
    | (None, c) => scan_collections value rest c
    end.
Proof.
  revert casefold_match_key.
  induction pre as [|item pre IH]; intros c; simpl; auto.
  destruct item as [| | | | |d|]; auto.
  destruct (dict_get _ "name"); auto.
  destruct (py_or _ _); auto.
  destruct (String.eqb s value); auto.
Qed.

(** The result of [_resolve_collection_key] is None exactly when the
    identifier is missing or blank, and otherwise a non-empty string;
    resolution never raises. *)
Theorem resolved_collection_is_absent_or_nonempty
    (collection_id : option string) (m : Machine) :
  exists m' resolved,
    _resolve_collection_key self collection_id m = (m', Returned resolved) /\
    (resolved = None <-> strip (default "" collection_id) = "") /\
    (forall key, resolved = Some key -> key <> "").
Proof.
  unfold _resolve_collection_key.
  destruct (nonempty collection_id) eqn:Hne; cbn [negb].
  2:{ exists m, None. unfold ret. repeat split; auto; try discriminate.
      destruct collection_id as [cid|]; [|reflexivity].
      simpl in Hne. destruct (String.eqb_spec cid "") as [->|]; [|discriminate].
      reflexivity. }
  destruct (String.eqb_spec (strip (default "" collection_id)) "") as [He|He].
  { exists m, None. unfold ret. repeat split; auto; discriminate. }
  assert (Hval : forall m0 : Machine,
    exists (m' : Machine) resolved,
      @ret Machine (option string)
        (Some (strip (default "" collection_id))) m0
      = (m', Returned resolved) /\
      (resolved = None <-> strip (default "" collection_id) = "") /\
      (forall key, resolved = Some key -> key <> "")).
  { intros m0. exists m0, (Some (strip (default "" collection_id))).
    unfold ret. split; [reflexivity|]. split.
    - split; [discriminate|contradiction].
    - intros key Hk. inversion Hk; subst. exact He. }
  destruct (_looks_like_collection_key _); [apply Hval|].
  destruct (getattr_callable (_api_client self) "get_collections")
    as [get_collections|]; [|apply Hval].
  unfold bind, try_except.
  destruct (_invoke_method get_collections [] m) as [m1 [e|r]]; cbn [ret];
    [apply Hval|].
  unfold ret at 1.
  destruct r as [| | | |l| |]; try apply Hval.
  destruct (scan_collections _ l None) as [exact_match_key casefold_match_key].
  destruct (nonempty (if nonempty exact_match_key then exact_match_key
                      else casefold_match_key)) eqn:Hr; [|apply Hval].
  eexists. eexists. unfold ret. split; [reflexivity|]. split.
  - split; [|contradiction].
    intros Hn. rewrite Hn in Hr. discriminate.
  - intros key Hk. rewrite Hk in Hr. simpl in Hr.
    apply String.eqb_neq. destruct (String.eqb key ""); [discriminate|reflexivity].
Qed.

(** When the collection lookup raises, or answers something that is not a
    list, a name is passed through: the trimmed identifier is returned and
    nothing is raised. *)
Theorem failed_collection_lookup_passes_the_name_through
    (collection_id : string) (get_collections : Method) (m m' : Machine)
    (answer : Outcome PyVal) :
  strip collection_id <> "" ->
  _looks_like_collection_key (strip collection_id) = false ->
  getattr_callable (_api_client self) "get_collections" = Some get_collections ->
  _invoke_method get_collections [] m = (m', answer) ->
  match answer with Raised _ => True | Returned r => is_list r = false end ->
  _resolve_collection_key self (Some collection_id) m
  = (m', Returned (Some (strip collection_id))).
Proof.
  intros Hs Hk Hg Hi Ha. unfold _resolve_collection_key.
  assert (Hne : nonempty (Some collection_id) = true).
  { simpl. destruct (String.eqb_spec collection_id "") as [->|]; auto. }
  change (default "" (Some collection_id)) with collection_id.
  rewrite Hne. cbn [negb].
  apply String.eqb_neq in Hs. rewrite Hs, Hk, Hg.
  unfold bind, try_except. rewrite Hi.
  destruct answer as [e|r]; [reflexivity|].
  destruct r; try reflexivity; discriminate.
Qed.

(** An exact name match decides, wherever it stands in the listing: when
    the listing holds, after entries none of which has the name exactly, an
    entry with exactly the requested name and a non-empty key, that key is
    returned, even if an earlier entry matched the name case-insensitively. *)
Theorem exact_collection_name_wins
    (collection_id key : string) (get_collections : Method) (m m' : Machine)
    (before after : list PyVal) :
  strip collection_id <> "" ->
  _looks_like_collection_key (strip collection_id) = false ->
  getattr_callable (_api_client self) "get_collections" = Some get_collections ->
  _invoke_method get_collections [] m
  = (m', Returned
           (PList (before
                   ++ PDict (collection_entry key (strip collection_id))
                      :: after))) ->
  fst (scan_collections (strip collection_id) before None) = None ->
  key <> "" ->
  _resolve_collection_key self (Some collection_id) m = (m', Returned (Some key)).
Proof.
  intros Hs Hk Hg Hi Hb Hkey. unfold _resolve_collection_key.
  assert (Hne : nonempty (Some collection_id) = true).
  { simpl. destruct (String.eqb_spec collection_id "") as [->|]; auto. }
  change (default "" (Some collection_id)) with collection_id.
  rewrite Hne. cbn [negb].
  apply String.eqb_neq in Hs. rewrite Hs, Hk, Hg.
  unfold bind, try_except. rewrite Hi. unfold ret at 1.
  rewrite scan_collections_app.
  destruct (scan_collections (strip collection_id) before None)
    as [exact c] eqn:Hscan.
  simpl in Hb. subst exact.
  assert (Hentry : scan_collections (strip collection_id)
                     (PDict (collection_entry key (strip collection_id)) :: after) c
                   = (Some key, c)).
  { unfold collection_entry. cbn [scan_collections].
    change (dict_get [("key", PStr key);
                      ("data", PDict [("name", PStr (strip collection_id))])]
              "data")
      with (PDict [("name", PStr (strip collection_id))]).
    change (dict_get [("name", PStr (strip collection_id))] "name")
      with (PStr (strip collection_id)).
    change (dict_get [("key", PStr key);
                      ("data", PDict [("name", PStr (strip collection_id))])]
              "key")
      with (PStr key).
    unfold py_or. cbn [truthy].
    apply String.eqb_neq in Hkey. rewrite Hkey. cbn [negb].
    change (dict_get [("name", PStr (strip collection_id))] "name")
      with (PStr (strip collection_id)).
    cbv iota. now rewrite String.eqb_refl. }
  rewrite Hentry. cbv beta iota. cbn [nonempty].
  apply String.eqb_neq in Hkey. rewrite Hkey. cbn [negb nonempty].
  rewrite Hkey. reflexivity.
Qed.

End NameResolution.

Lemma failed_collection_lookup_passes_the_name_through_witness :
  let self := collections_adapter (PStr "unavailable") in
  let m' := @Build_Machine demo_host 0%nat [EvInvoke []] in
  getattr_callable (_api_client self) "get_collections"
  = Some (answering_method (PStr "unavailable")) /\
  @_invoke_method demo_host (answering_method (PStr "unavailable")) []
    demo_machine
  = (m', Returned (PStr "unavailable")) /\
  @_resolve_collection_key demo_host self (Some " 00_INBOXS_AA ") demo_machine
  = (m', Returned (Some "00_INBOXS_AA")).
Proof.
  intros self m'. split; [reflexivity|]. split; [reflexivity|].
  apply (@failed_collection_lookup_passes_the_name_through demo_host
           self " 00_INBOXS_AA " (answering_method (PStr "unavailable"))
           demo_machine m' (Returned (PStr "unavailable")));
    try reflexivity; discriminate.
Defined.

Lemma exact_collection_name_wins_witness :
  let listing :=
    PList ([PDict (collection_entry "AAAA1111" "00_inboxs_aa")]
           ++ PDict (collection_entry "866TNWZ9" "00_INBOXS_AA") :: []) in
  let m' := @Build_Machine demo_host 0%nat [EvInvoke []] in
  fst (scan_collections "00_INBOXS_AA"
         [PDict (collection_entry "AAAA1111" "00_inboxs_aa")] None) = None /\
  @_resolve_collection_key demo_host (collections_adapter listing)
    (Some "00_INBOXS_AA") demo_machine
  = (m', Returned (Some "866TNWZ9")).
Proof.
  intros listing m'. split; [reflexivity|].
  apply (@exact_collection_name_wins demo_host (collections_adapter listing)
           "00_INBOXS_AA" "866TNWZ9" (answering_method listing)
           demo_machine m'
           [PDict (collection_entry "AAAA1111" "00_inboxs_aa")] []);
    try reflexivity; discriminate.
Defined.

(** ** The outgoing payload *)

Lemma lookup_filter_by_key (P : string -> bool) (d : PyDict) (k : string) :
  dict_lookup (List.filter (fun kv => P (fst kv)) d) k
  = if P k then dict_lookup d k else None.
Proof.
  induction d as [|[k' v'] d IH]; simpl.
  - now destruct (P k).
  - destruct (P k') eqn:Hk'; simpl.
    + destruct (String.eqb_spec k' k) as [->|Hne].
      * now rewrite Hk'.
      * exact IH.
    + rewrite IH. destruct (String.eqb_spec k' k) as [->|Hne]; auto.
      now rewrite Hk'.
Qed.

Lemma lookup_filter_None (P : string * PyVal -> bool) (d : PyDict) (k : string) :
  dict_lookup d k = None -> dict_lookup (List.filter P d) k = None.
Proof.
  induction d as [|[k' v'] d IH]; simpl; auto.
  destruct (String.eqb k' k) eqn:E; [discriminate|].
  intros Hl. destruct (P (k', v')); simpl; auto. rewrite E. auto.
Qed.

Lemma lookup_filter_not_none (d : PyDict) (k : string) :
  NoDup (map fst d) ->
  dict_lookup (List.filter (fun kv => negb (is_none (snd kv))) d) k
  = match dict_lookup d k with
    | Some v => if is_none v then None else Some v
    | None => None
    end.
Proof.
  induction d as [|[k' v'] d IH]; simpl; auto.
  intros Hnd. inversion Hnd as [|x l Hnotin Hnd' Heq]; subst.
  destruct (String.eqb_spec k' k) as [->|Hne].
  - destruct (is_none v'); simpl.
    + apply lookup_filter_None. apply dict_lookup_not_in.
      intros Hin. apply Hnotin. now apply list_elem_of_In.
    + now rewrite String.eqb_refl.
  - destruct (is_none v'); simpl; auto.
    apply String.eqb_neq in Hne. rewrite Hne. auto.
Qed.

Lemma normalize_lookup_allowed (zotero_item : PyDict) (item_type k : string) :
  string_in k preprint_allowed_fields = true ->
  k <> "repository" ->
  dict_lookup (_normalize_item_for_type zotero_item item_type) k
  = dict_lookup zotero_item k.
Proof.
  intros Ha Hr. unfold _normalize_item_for_type.
  destruct (negb (String.eqb (lower (strip item_type)) "preprint")); auto.
  rewrite (lookup_filter_by_key (fun f => string_in f preprint_allowed_fields)).
  rewrite Ha, dict_lookup_items.
  destruct (truthy _ && negb _); auto.
  rewrite dict_lookup_set_ne; auto.
Qed.

Lemma normalize_lookup_dropped (zotero_item : PyDict) (item_type k : string) :
  lower (strip item_type) = "preprint" ->
  string_in k preprint_allowed_fields = false ->
  dict_lookup (_normalize_item_for_type zotero_item item_type) k = None.
Proof.
  intros Hp Ha. unfold _normalize_item_for_type. rewrite Hp. simpl negb.
  cbv iota.
  rewrite (lookup_filter_by_key (fun f => string_in f preprint_allowed_fields)).
  now rewrite Ha.
Qed.

Lemma normalize_lookup_repository (zotero_item : PyDict) (item_type pt : string) :
  lower (strip item_type) = "preprint" ->
  dict_get zotero_item "publicationTitle" = PStr pt -> pt <> "" ->
  dict_lookup zotero_item "repository" = None ->
  dict_lookup (_normalize_item_for_type zotero_item item_type) "repository"
  = Some (PStr pt).
Proof.
  intros Hp Ht Hne Hr. unfold _normalize_item_for_type. rewrite Hp.
  simpl negb. cbv iota.
  rewrite (lookup_filter_by_key (fun f => string_in f preprint_allowed_fields)).
  simpl string_in. cbv iota.
  rewrite dict_lookup_items, Ht.
  unfold dict_get at 1. rewrite Hr. simpl truthy.
  apply String.eqb_neq in Hne. rewrite Hne. simpl.
  apply dict_lookup_set_eq.
Qed.

(** The fields that carry a record's identity reach the payload for every
    item type, preprints included: the payload has the paper's title, its
    DOI and URL exactly when the paper has them, its publication date in
    ISO form exactly when the paper has one, and a [collections] list
    exactly when collection keys were resolved. *)
Theorem payload_keeps_identity_fields
    (now : string) (paper : PaperItem) (collection_keys : option (list string)) :
  let zotero_item := _paper_to_zotero_item now paper collection_keys in
  dict_lookup zotero_item "title" = Some (PStr (title paper)) /\
  dict_lookup zotero_item "DOI" = option_map PStr (doi paper) /\
  dict_lookup zotero_item "url" = option_map PStr (url paper) /\
  dict_lookup zotero_item "date"
  = option_map (fun d => PStr (isoformat d)) (published_date paper) /\
  dict_lookup zotero_item "collections"
  = match collection_keys with
    | Some (key :: keys) => Some (PList (map PStr (key :: keys)))
    | _ => None
    end.
Proof.
  intros zotero_item. subst zotero_item. unfold _paper_to_zotero_item.
  cbv zeta.
  repeat split;
    rewrite lookup_filter_not_none by apply NoDup_dict_items;
    rewrite dict_lookup_items;
    rewrite normalize_lookup_allowed by (try reflexivity; discriminate);
    destruct collection_keys as [[|key keys]|];
    rewrite ?dict_lookup_set_ne by discriminate;
    try rewrite dict_lookup_set_eq;
    cbn [dict_lookup String.eqb Ascii.eqb Bool.eqb is_none opt_str];
    try reflexivity.
  all: try (destruct (doi paper); reflexivity).
  all: try (destruct (url paper); reflexivity).
  all: try (destruct (published_date paper); reflexivity).
Qed.

(** The payload is a well-formed mapping with no None value: each field
    name occurs once, and no field holds None. *)
Theorem payload_has_no_none_value
    (now : string) (paper : PaperItem) (collection_keys : option (list string)) :
  let zotero_item := _paper_to_zotero_item now paper collection_keys in
  NoDup (map fst zotero_item) /\
  (forall k, dict_lookup zotero_item k <> Some PNone) /\
  (forall kv, In kv zotero_item -> snd kv <> PNone).
Proof.
  intros zotero_item. subst zotero_item. unfold _paper_to_zotero_item.
  cbv zeta. split; [|split].
  - apply NoDup_keys_filter, NoDup_dict_items.
  - intros k. rewrite lookup_filter_not_none by apply NoDup_dict_items.
    destruct (dict_lookup _ k) as [v|]; [|discriminate].
    destruct v; simpl; discriminate.
  - intros kv Hin. apply filter_In in Hin. destruct Hin as [_ Hn].
    intros Heq. rewrite Heq in Hn. discriminate.
Qed.

(** For a preprint (the item type, trimmed and lowercased, is "preprint")
    every field outside the preprint allowlist is dropped from the payload,
    journal fields such as publicationTitle, ISSN, volume, issue and pages
    among them, and a non-empty publication title is carried over as
    [repository]. *)
Theorem preprint_payload_keeps_only_allowed_fields
    (now : string) (paper : PaperItem) (collection_keys : option (list string)) :
  lower (strip (item_type paper)) = "preprint" ->
  let zotero_item := _paper_to_zotero_item now paper collection_keys in
  (forall k,
     string_in k preprint_allowed_fields = false ->
     dict_lookup zotero_item k = None) /\
  (forall pt,
     publication_title paper = Some pt -> pt <> "" ->
     dict_lookup zotero_item "repository" = Some (PStr pt)).
Proof.
  intros Hp zotero_item. subst zotero_item. unfold _paper_to_zotero_item.
  cbv zeta.
  assert (Hit : String.eqb (item_type paper) "" = false).
  { destruct (String.eqb_spec (item_type paper) "") as [He|]; auto.
    rewrite He in Hp. discriminate. }
  rewrite Hit. split.
  - intros k Hk. rewrite lookup_filter_not_none by apply NoDup_dict_items.
    rewrite dict_lookup_items. now rewrite normalize_lookup_dropped.
  - intros pt Hpt Hne.
    rewrite lookup_filter_not_none by apply NoDup_dict_items.
    rewrite dict_lookup_items.
    rewrite (normalize_lookup_repository _ _ pt); auto.
    + destruct collection_keys as [[|key keys]|]; unfold dict_get;
        rewrite ?dict_lookup_set_ne by discriminate;
        cbn [dict_lookup String.eqb Ascii.eqb Bool.eqb]; now rewrite Hpt.
    + destruct collection_keys as [[|key keys]|];
        rewrite ?dict_lookup_set_ne by discriminate; reflexivity.
Qed.

Lemma preprint_payload_keeps_only_allowed_fields_witness :
  let paper :=
    {| title := "Preprint Paper"; source := "Test"; source_type := "rss";
       authors := []; abstract := ""; published_date := None; doi := None;
       url := None; pdf_url := None; publication_title := Some "SSRN";
       journal_abbreviation := Some "J. Test"; publisher := None;
       place := None; volume := Some "1"; issue := Some "2";
       pages := Some "3-4"; section := None; part_number := None;
       part_title := None; series := None; series_title := None;
       series_text := None; citation_key := None; access_date := None;
       pmid := None; pmcid := None; issn := Some "1234-5678"; archive := None;
       archive_location := None; short_title := None; language := None;
       library_catalog := None; call_number := None; rights := None;
       item_type := " Preprint " |} in
  lower (strip (item_type paper)) = "preprint" /\
  dict_lookup (_paper_to_zotero_item "2026-01-01" paper None) "volume" = None /\
  dict_lookup (_paper_to_zotero_item "2026-01-01" paper None) "repository"
  = Some (PStr "SSRN").
Proof.
  intros paper. split; [reflexivity|].
  destruct (preprint_payload_keeps_only_allowed_fields "2026-01-01" paper None
              eq_refl) as [Hdrop Hrepo].
  split.
  - apply Hdrop. reflexivity.
  - apply Hrepo; [reflexivity|discriminate].
Defined.

(** ** Coercing remote items *)

Section Coercion.

Context {host : Host}.

Lemma coerce_with_data (item : PyDict) :
  is_dict (dict_get item "data") = true -> _coerce_flat_item_dict item = item.
Proof.
  unfold _coerce_flat_item_dict.
  destruct (dict_get item "data"); try discriminate. reflexivity.
Qed.

(** What [_coerce_flat_item_dict] returns either carries a nested [data]
    mapping or is its argument, untouched. *)
Lemma coerce_flat_shape (item : PyDict) :
  _coerce_flat_item_dict item = item \/
  is_dict (dict_get (_coerce_flat_item_dict item) "data") = true.
Proof.
  destruct (is_dict (dict_get item "data")) eqn:Hd.
  { left. now apply coerce_with_data. }
  unfold _coerce_flat_item_dict.
  destruct (dict_get item "data"); try discriminate;
    (destruct (dict_get item "raw_data") as [| | | | |rd|] eqn:Hr;
     [..|destruct (dict_get rd "data") eqn:Hn|]);
    try (right; exact (f_equal is_dict Hn));
    cbv zeta;
    match goal with
    | |- context [merge_top_level item ?m] =>
        destruct (merge_top_level item m); [now left|now right]
    end.
Qed.

(** Coercion is idempotent: an item that has been coerced passes through a
    second coercion unchanged. *)
Theorem coerce_flat_item_dict_is_idempotent (item : PyDict) :
  _coerce_flat_item_dict (_coerce_flat_item_dict item)
  = _coerce_flat_item_dict item.
Proof.
  destruct (coerce_flat_shape item) as [Hsame|Hdata].
  - rewrite Hsame. exact Hsame.
  - now apply coerce_with_data.
Qed.

Lemma normalize_list_length (values : list PyVal) :
  (length (_normalize_list values) <= length values)%nat.
Proof.
  unfold _normalize_list.
  induction values as [|value values IH]; simpl; auto.
  rewrite length_app.
  destruct (_coerce_item_to_dict value); simpl; lia.
Qed.

Lemma normalize_list_dicts (values : list PyVal) :
  Forall (fun value => is_dict value = true) values ->
  length (_normalize_list values) = length values.
Proof.
  unfold _normalize_list.
  induction 1 as [|value values Hd Hall IH]; simpl; auto.
  rewrite length_app, IH.
  destruct value; try discriminate. reflexivity.
Qed.

(** Normalizing a listing given as a plain list never adds items: entries
    that cannot be coerced are dropped, and when every entry is a dict all
    of them are kept. *)
Theorem normalized_listing_is_no_longer_than_the_listing (values : list PyVal) :
  exists items,
    _normalize_item_list_result (PList values) = Some items /\
    (length items <= length values)%nat /\
    (Forall (fun value => is_dict value = true) values ->
     length items = length values).
Proof.
  exists (_normalize_list values). split; [reflexivity|]. split.
  - apply normalize_list_length.
  - apply normalize_list_dicts.
Qed.

End Coercion.

(** ** Listing discovery and paging *)

Section Listing.

Context {host : Host}.

Lemma invoke_method_trace (method : Method) (kwargs : list (string * PyVal))
    (m : Machine) :
  exists calls,
    trace (fst (_invoke_method method kwargs m)) = (trace m ++ calls)%list /\
    (length calls <= 1)%nat /\
    Forall (fun ev => exists call_kwargs, ev = EvInvoke call_kwargs) calls.
Proof.
  unfold _invoke_method, bind, lift_outcome, invoke_remote.
  destruct (signature method) as [e|sig]; simpl.
  - exists []. rewrite app_nil_r. repeat split; auto.
  - destruct (call method _ (world m)) as [w result]. simpl.
    eexists. split; [reflexivity|]. split; [simpl; lia|].
    constructor; eauto.
Qed.

Lemma collect_pages_trace (method : Method) (page_cursor_key : string)
    (pages : nat) (cursor : Z) (all_items : list PyDict) (m : Machine) :
  exists calls,
    trace (fst (collect_pages method page_cursor_key pages cursor all_items m))
    = (trace m ++ calls)%list /\
    (length calls <= pages)%nat /\
    Forall (fun ev => exists call_kwargs, ev = EvInvoke call_kwargs) calls.
Proof.
  revert cursor all_items m.
  induction pages as [|pages IH]; intros cursor all_items m.
  - exists []. simpl. rewrite app_nil_r. repeat split; auto.
  - cbn [collect_pages]. unfold bind.
    destruct (invoke_method_trace method
                [("limit", PInt (Z.of_nat page_size));
                 (page_cursor_key, PInt cursor)] m) as (c1 & Ht1 & Hl1 & Hf1).
    destruct (_invoke_method method _ m) as [m1 [e|result]]; simpl in Ht1.
    + exists c1. simpl. repeat split; auto. lia.
    + destruct (_normalize_item_list_result result) as [batch|].
      * destruct (length batch <? page_size)%nat.
        -- exists c1. simpl. repeat split; auto. lia.
        -- destruct (IH (cursor + Z.of_nat (length batch))
                       (all_items ++ batch)%list m1) as (c2 & Ht2 & Hl2 & Hf2).
           exists (c1 ++ c2)%list. rewrite Ht2, Ht1, <- app_assoc.
           split; [reflexivity|]. rewrite length_app. split; [lia|].
           apply Forall_app. auto.
      * exists c1. simpl. repeat split; auto. lia.
Qed.

(** Gathering the items of one listing method makes at most [max_pages]
    (200) remote calls, whatever the method answers, and only invokes that
    method; a method that keeps answering full pages is cut off there. *)
Theorem collecting_items_is_bounded (method : Method) (m : Machine) :
  exists calls,
    trace (fst (_collect_items method m)) = (trace m ++ calls)%list /\
    (length calls <= max_pages)%nat /\
    Forall (fun ev => exists call_kwargs, ev = EvInvoke call_kwargs) calls.
Proof.
  assert (Hnil : exists calls,
            trace m = (trace m ++ calls)%list /\
            (length calls <= max_pages)%nat /\
            Forall (fun ev => exists call_kwargs, ev = EvInvoke call_kwargs) calls).
  { exists []. rewrite app_nil_r. repeat split; auto. simpl. lia. }
  assert (Hone : forall kwargs, exists calls,
            trace (fst (_invoke_method method kwargs m))
            = (trace m ++ calls)%list /\
            (length calls <= max_pages)%nat /\
            Forall (fun ev => exists call_kwargs, ev = EvInvoke call_kwargs) calls).
  { intros kwargs.
    destruct (invoke_method_trace method kwargs m) as (c & Ht & Hl & Hf).
    exists c. repeat split; auto. unfold max_pages. lia. }
  unfold _collect_items, _method_accepts_param, bind, lift_outcome, ret.
  destruct (signature method) as [e|sig] eqn:Hsig; [exact Hnil|].
  destruct (string_in "start" (parameters sig)).
  - apply collect_pages_trace.
  - destruct (string_in "offset" (parameters sig)).
    + apply collect_pages_trace.
    + destruct (Hone [("limit", PInt 100000)]) as (c & Ht & Hl & Hf).
      destruct (_invoke_method method [("limit", PInt 100000)] m)
        as [m1 [e|result]]; exists c; auto.
Qed.

(** Keyword arguments are bound to what the method declares: when its
    signature has no [**kwargs], the call is made with exactly those of the
    given keyword arguments whose names the signature declares, in their
    order, and nothing else; with [**kwargs], all are passed. *)
Theorem invoke_passes_only_declared_keywords
    (method : Method) (sig : Signature) (kwargs : list (string * PyVal))
    (m : Machine) :
  signature method = Returned sig ->
  exists call_kwargs,
    _invoke_method method kwargs m
    = ({| world := fst (call method call_kwargs (world m));
          trace := (trace m ++ [EvInvoke call_kwargs])%list |},
       snd (call method call_kwargs (world m))) /\
    (var_keyword sig = true -> call_kwargs = kwargs) /\
    (var_keyword sig = false ->
     forall kv,
       In kv call_kwargs <->
       In kv kwargs /\ string_in (fst kv) (parameters sig) = true).
Proof.
  intros Hsig. unfold _invoke_method, bind, lift_outcome, invoke_remote.
  rewrite Hsig.
  exists (List.filter
            (fun kv => var_keyword sig || string_in (fst kv) (parameters sig))
            kwargs).
  split.
  - cbv beta zeta. destruct (call method _ (world m)) as [w result].
    reflexivity.
  - split.
    + intros Hv. rewrite Hv. simpl.
      induction kwargs as [|kv kwargs IH]; simpl; congruence.
    + intros Hv kv. rewrite Hv. simpl. apply filter_In.
Qed.

Variable self : ZoteroAdapter.

Lemma try_method_names_returns (target : Target) (names : list string)
    (m : Machine) :
  exists m' r, try_method_names target names m = (m', Returned r).
Proof.
  revert m. induction names as [|name names IH]; intros m; simpl.
  - unfold ret. eauto.
  - destruct (getattr_callable target name) as [method|]; [|apply IH].
    unfold bind, try_except.
    destruct (_collect_items method m) as [m1 [e|[items|]]].
    + destruct (is_type_error e); unfold ret; apply IH.
    + unfold ret. eauto.
    + apply IH.
Qed.

Lemma try_method_names_sound (target : Target) (names : list string)
    (m m' : Machine) (items : list PyDict) :
  try_method_names target names m = (m', Returned (Some items)) ->
  exists name method m0,
    In name names /\ getattr_callable target name = Some method /\
    _collect_items method m0 = (m', Returned (Some items)).
Proof.
  revert m. induction names as [|name names IH]; intros m; simpl.
  - unfold ret. discriminate.
  - assert (Hrest : forall m1,
              try_method_names target names m1 = (m', Returned (Some items)) ->
              exists name0 method m0,
                (name = name0 \/ In name0 names) /\
                getattr_callable target name0 = Some method /\
                _collect_items method m0 = (m', Returned (Some items))).
    { intros m1 H1. destruct (IH _ H1) as (n & meth & m0 & Hin & Hg & Hc).
      exists n, meth, m0. auto. }
    destruct (getattr_callable target name) as [method|] eqn:Hg; [|apply Hrest].
    unfold bind, try_except.
    destruct (_collect_items method m) as [m1 [e|[its|]]] eqn:Hc.
    + destruct (is_type_error e); unfold ret; apply Hrest.
    + unfold ret. intros Heq. inversion Heq; subst.
      exists name, method, m. auto.
    + apply Hrest.
Qed.

(** A listing returned by the discovery is the listing of one of the
    candidate methods: some method found under one of the four candidate
    names on the item service or the API client returned exactly these
    items, and the discovery stopped in the state that call left. *)
Theorem listing_comes_from_a_candidate_method
    (m m' : Machine) (items : list PyDict) :
  _list_existing_items self m = (m', Returned items) ->
  exists target name method m0,
    In target [_item_service self; _api_client self] /\
    In name _ITEM_LIST_METHOD_CANDIDATES /\
    getattr_callable target name = Some method /\
    _collect_items method m0 = (m', Returned (Some items)).
Proof.
  unfold _list_existing_items. cbn [try_targets]. unfold bind.
  destruct (try_method_names_returns (_item_service self)
              _ITEM_LIST_METHOD_CANDIDATES m) as (m1 & r1 & H1).
  rewrite H1. destruct r1 as [items1|].
  - unfold ret. intros Heq. inversion Heq; subst.
    destruct (try_method_names_sound _ _ _ _ _ H1) as (n & meth & m0 & Hin & Hg & Hc).
    exists (_item_service self), n, meth, m0. repeat split; auto. now left.
  - destruct (try_method_names_returns (_api_client self)
                _ITEM_LIST_METHOD_CANDIDATES m1) as (m2 & r2 & H2).
    rewrite H2. destruct r2 as [items2|].
    + unfold ret. intros Heq. inversion Heq; subst.
      destruct (try_method_names_sound _ _ _ _ _ H2)
        as (n & meth & m0 & Hin & Hg & Hc).
      exists (_api_client self), n, meth, m0. repeat split; auto.
      right. now left.
    + unfold raise. discriminate.
Qed.

End Listing.

Lemma invoke_passes_only_declared_keywords_witness :
  let kwargs := [("limit", PInt 1000); ("offset", PInt 0)] in
  signature paged_method
  = Returned {| parameters := ["limit"; "start"]; var_keyword := false |} /\
  exists call_kwargs,
    fst (@_invoke_method demo_host paged_method kwargs demo_machine)
    = @Build_Machine demo_host
        (fst (call paged_method call_kwargs 0%nat)) [EvInvoke call_kwargs] /\
    ~ In ("offset", PInt 0) call_kwargs.
Proof.
  intros kwargs. split; [reflexivity|].
  destruct (@invoke_passes_only_declared_keywords demo_host paged_method
              {| parameters := ["limit"; "start"]; var_keyword := false |}
              kwargs demo_machine eq_refl) as (call_kwargs & Heq & _ & Honly).
  exists call_kwargs. split.
  - rewrite Heq. reflexivity.
  - intros Hin. apply (Honly eq_refl) in Hin. destruct Hin as [_ Hdecl].
    discriminate Hdecl.
Defined.

Lemma listing_comes_from_a_candidate_method_witness :
  let self := listing_adapter (PList [PDict remote_item]) in
  let m' := @Build_Machine demo_host 0%nat [EvInvoke []] in
  @_list_existing_items demo_host self demo_machine
  = (m', Returned [remote_item]) /\
  exists target name method m0,
    In target [_item_service self; _api_client self] /\
    In name _ITEM_LIST_METHOD_CANDIDATES /\
    getattr_callable target name = Some method /\
    _collect_items method m0 = (m', Returned (Some [remote_item])).
Proof.
  intros self m'.
  assert (H : @_list_existing_items demo_host self demo_machine
              = (m', Returned [remote_item])) by reflexivity.
  split; [exact H|].
  exact (@listing_comes_from_a_candidate_method demo_host self demo_machine m'
           [remote_item] H).
Defined.

(** ** The preloaded index *)

Section Preload.

Context {host : Host} {dedup : Dedup}.
Variable self : ZoteroAdapter.

Lemma update_keys_spec (items : list PyDict) (keys ks : gset IdentityKey) :
  update_keys items keys = Returned ks ->
  forall k,
    k ∈ ks <->
    k ∈ keys \/
    exists item l,
      In item items /\ zotero_data_identity_keys (PDict item) = Returned l /\
      In k l.
Proof.
  revert keys. induction items as [|item items IH]; intros keys; simpl.
  - intros Heq k. inversion Heq; subst. split; [auto|].
    intros [Hk|(it & l & [] & _)]; exact Hk.
  - destruct (zotero_data_identity_keys (PDict item)) as [e|l0] eqn:Hz;
      [discriminate|].
    intros Heq k. rewrite (IH _ Heq k). rewrite elem_of_union, elem_of_list_to_set.
    split.
    + intros [[Hk|Hk]|(it & l & Hin & Hl & Hkl)].
      * now left.
      * right. exists item, l0. repeat split; auto. now apply list_elem_of_In.
      * right. exists it, l. auto.
    + intros [Hk|(it & l & [<-|Hin] & Hl & Hkl)].
      * left. now left.
      * left. right. rewrite Hz in Hl. inversion Hl; subst.
        now apply list_elem_of_In.
      * right. exists it, l. auto.
Qed.

Lemma update_keys_raises (items : list PyDict) (keys : gset IdentityKey)
    (item : PyDict) (e : Exn) :
  In item items ->
  zotero_data_identity_keys (PDict item) = Raised e ->
  exists e', update_keys items keys = Raised e'.
Proof.
  revert keys. induction items as [|it items IH]; intros keys Hin Hz; simpl.
  - destruct Hin.
  - destruct (zotero_data_identity_keys (PDict it)) as [e0|l0] eqn:Hz0; [eauto|].
    destruct Hin as [->|Hin]; [congruence|]. now apply IH.
Qed.

(** When the preload succeeds, the index it returns holds exactly the
    identity keys derived from the listed items: every key of every listed
    item, and no other key. *)
Theorem preloaded_index_is_the_keys_of_the_listed_items
    (m m' : Machine) (index : gset IdentityKey) :
  _load_existing_identity_keys self m = (m', Returned index) ->
  exists items,
    _list_existing_items self m = (m', Returned items) /\
    forall k,
      k ∈ index <->
      exists item l,
        In item items /\
        zotero_data_identity_keys (PDict item) = Returned l /\ In k l.
Proof.
  unfold _load_existing_identity_keys, bind, lift_outcome.
  destruct (_list_existing_items self m) as [m1 [e|items]]; [discriminate|].
  intros Heq. inversion Heq as [[Hm Hu]]. subst m1.
  exists items. split; [reflexivity|].
  intros k. rewrite (update_keys_spec _ _ _ Hu k). split.
  - intros [Hk|H]; [|exact H]. now apply not_elem_of_empty in Hk.
  - intros H. now right.
Qed.

(** One listed item whose key derivation raises makes the whole preload
    raise, and [export] then goes on with an empty index: the keys of the
    other listed items are not used either. *)
Theorem one_underivable_item_empties_the_index
    (m m' : Machine) (items : list PyDict) (item : PyDict) (e : Exn) :
  _list_existing_items self m = (m', Returned items) ->
  In item items ->
  zotero_data_identity_keys (PDict item) = Raised e ->
  (exists e', _load_existing_identity_keys self m = (m', Raised e')) /\
  try_except (_load_existing_identity_keys self) (fun _ => ret ∅) m
  = (m', Returned ∅).
Proof.
  intros Hl Hin Hz.
  destruct (update_keys_raises items ∅ item e Hin Hz) as [e' He'].
  assert (Hload : _load_existing_identity_keys self m = (m', Raised e')).
  { unfold _load_existing_identity_keys, bind, lift_outcome.
    now rewrite Hl, He'. }
  split; [eauto|]. unfold try_except. now rewrite Hload.
Qed.

End Preload.

Lemma preloaded_index_is_the_keys_of_the_listed_items_witness :
  let self := listing_adapter (PList [PDict remote_item]) in
  let m' := @Build_Machine demo_host 0%nat [EvInvoke []] in
  let index : gset IdentityKey := ∅ ∪ list_to_set [("doi", "10.1/old")] in
  @_load_existing_identity_keys demo_host spec_dedup self demo_machine
  = (m', Returned index) /\
  ("doi", "10.1/old") ∈ index.
Proof.
  intros self m' index.
  assert (H : @_load_existing_identity_keys demo_host spec_dedup self
                demo_machine = (m', Returned index)) by reflexivity.
  split; [exact H|].
  destruct (@preloaded_index_is_the_keys_of_the_listed_items demo_host
              spec_dedup self demo_machine m' index H) as (items & Hl & Hk).
  assert (Hitems : items = [remote_item]).
  { assert (Hc : @_list_existing_items demo_host self demo_machine
                 = (m', Returned [remote_item])) by reflexivity.
    rewrite Hc in Hl. now inversion Hl. }
  apply Hk. exists remote_item, [("doi", "10.1/old")].
  rewrite Hitems. repeat split; now left.
Defined.

Lemma one_underivable_item_empties_the_index_witness :
  let self := listing_adapter (PList [PDict remote_item; PStr "stray"]) in
  let m' := @Build_Machine demo_host 0%nat [EvInvoke []] in
  let stray := [("data", PDict [("title", PObj None None [])])] in
  @_list_existing_items demo_host self demo_machine
  = (m', Returned [remote_item; stray]) /\
  try_except (@_load_existing_identity_keys demo_host picky_dedup self)
    (fun _ => ret ∅) demo_machine
  = (m', Returned ∅).
Proof.
  intros self m' stray.
  assert (H : @_list_existing_items demo_host self demo_machine
              = (m', Returned [remote_item; stray])) by reflexivity.
  split; [exact H|].
  refine (proj2 (@one_underivable_item_empties_the_index demo_host picky_dedup
                   self demo_machine m' [remote_item; stray] stray
                   {| exn_class := OtherError "AttributeError";
                      exn_msg := "object has no attribute 'lower'" |}
                   H _ eq_refl)).
  right. left. reflexivity.
Defined.

(** ** Authors given as text *)

Lemma lstrip_suffix (l : list ascii) : exists p, l = (p ++ lstrip_chars l)%list.
Proof.
  induction l as [|c l [p IH]]; simpl.
  - now exists [].
  - destruct (is_space c).
    + exists (c :: p). simpl. now rewrite <- IH.
    + now exists [].
Qed.

Lemma lstrip_head (l : list ascii) (c : ascii) (rest : list ascii) :
  lstrip_chars l = c :: rest -> is_space c = false.
Proof.
  induction l as [|c0 l IH]; simpl; [discriminate|].
  destruct (is_space c0) eqn:E; auto.
  intros Heq. inversion Heq; subst. exact E.
Qed.

Lemma lstrip_id (l : list ascii) :
  (forall c rest, l = c :: rest -> is_space c = false) -> lstrip_chars l = l.
Proof.
  destruct l as [|c l]; simpl; auto.
  intros H. now rewrite (H c l eq_refl).
Qed.

Lemma strip_chars_idempotent (l : list ascii) :
  strip_chars (strip_chars l) = strip_chars l.
Proof.
  unfold strip_chars.
  set (A := lstrip_chars l). set (B := lstrip_chars (rev A)).
  assert (HB : lstrip_chars B = B).
  { apply lstrip_id. intros c rest Heq. subst B. now apply lstrip_head in Heq. }
  assert (HC : lstrip_chars (rev B) = rev B).
  { apply lstrip_id. intros c rest Heq.
    destruct (lstrip_suffix (rev A)) as [p Hp]. fold B in Hp.
    assert (HA : A = (rev B ++ rev p)%list).
    { rewrite <- (rev_involutive A), Hp. apply rev_app_distr. }
    rewrite Heq in HA. simpl in HA. subst A. now apply lstrip_head in HA. }
  now rewrite HC, rev_involutive, HB.
Qed.

Lemma strip_idempotent (s : string) : strip (strip s) = strip s.
Proof.
  unfold strip. rewrite list_ascii_of_string_of_list_ascii.
  now rewrite strip_chars_idempotent.
Qed.

Lemma lstrip_In (c : ascii) (l : list ascii) :
  In c (lstrip_chars l) -> In c l.
Proof.
  destruct (lstrip_suffix l) as [p Hp]. intros Hin. rewrite Hp.
  apply in_or_app. now right.
Qed.

Lemma strip_chars_In (c : ascii) (l : list ascii) :
  In c (strip_chars l) -> In c l.
Proof.
  unfold strip_chars. intros Hin.
  apply in_rev in Hin. apply lstrip_In in Hin.
  apply in_rev in Hin. now apply lstrip_In in Hin.
Qed.

Lemma split_chars_no_sep (sep : ascii) (l chunk : list ascii) :
  In chunk (split_chars sep l) -> ~ In sep chunk.
Proof.
  revert chunk. induction l as [|c l IH]; intros chunk; simpl.
  - intros [<-|[]] [].
  - destruct (Ascii.eqb c sep) eqn:E.
    + intros [<-|Hin]; [intros []|now apply IH].
    + apply Ascii.eqb_neq in E.
      destruct (split_chars sep l) as [|h t] eqn:Hs.
      * intros [<-|[]] [Heq|[]]. now apply E.
      * intros [<-|Hin].
        -- intros [Heq|Hh]; [now apply E|].
           apply (IH h); [now left|exact Hh].
        -- apply IH. now right.
Qed.

(** Authors given as one string: every author entry made from it has the
    shape [{"creatorType": "author", "name": name}] with a name that is not
    empty, has no surrounding whitespace and holds no semicolon. *)
Theorem creators_from_text_have_clean_names (text : string) (entry : PyVal) :
  In entry (_coerce_creators (PStr text)) ->
  exists name,
    entry = author_entry name /\
    name <> "" /\
    strip name = name /\
    ~ In ";"%char (list_ascii_of_string name).
Proof.
  unfold _coerce_creators. intros Hin.
  apply in_flat_map in Hin. destruct Hin as (chunk & Hchunk & Hentry).
  unfold split in Hchunk. apply in_map_iff in Hchunk.
  destruct Hchunk as (chars & <- & Hchars).
  destruct (String.eqb_spec (strip (string_of_list_ascii chars)) "") as [|Hne];
    [destruct Hentry|].
  destruct Hentry as [<-|[]].
  exists (strip (string_of_list_ascii chars)).
  split; [reflexivity|]. split; [exact Hne|].
  split; [apply strip_idempotent|].
  unfold strip. rewrite !list_ascii_of_string_of_list_ascii.
  intros Hsemi. apply strip_chars_In in Hsemi.
  exact (split_chars_no_sep _ _ _ Hchars Hsemi).
Qed.

Lemma creators_from_text_have_clean_names_witness :
  In (author_entry "Li") (_coerce_creators (PStr "Wang and  Li ; Zhao")) /\
  exists name,
    author_entry "Li" = author_entry name /\
    name <> "" /\
    strip name = name /\
    ~ In ";"%char (list_ascii_of_string name).
Proof.
  assert (H : In (author_entry "Li")
                (_coerce_creators (PStr "Wang and  Li ; Zhao")))
    by (right; left; reflexivity).
  split; [exact H|].
  exact (creators_from_text_have_clean_names "Wang and  Li ; Zhao"
           (author_entry "Li") H).
Defined.

(** ** Reported failures *)

Lemma dedup_strings_In (x : string) (l : list string) :
  In x (dedup_strings l) <-> In x l.
Proof.
  induction l as [|s l IH]; simpl; [tauto|].
  rewrite filter_In, IH. split.
  - intros [H|[H _]]; auto.
  - intros [H|H]; [now left|].
    destruct (String.eqb x s) eqn:E.
    + left. symmetry. now apply String.eqb_eq.
    + right. split; [assumption|reflexivity].
Qed.

Lemma NoDup_strings_filter (P : string -> bool) (l : list string) :
  NoDup l -> NoDup (List.filter P l).
Proof.
  induction l as [|s l IH]; simpl; intros Hnd; auto.
  inversion Hnd as [|x l' Hnotin Hnd' Heq]; subst.
  destruct (P s); auto. constructor; auto.
  intros Hin. apply Hnotin. apply list_elem_of_In. apply list_elem_of_In in Hin.
  apply filter_In in Hin. tauto.
Qed.

Lemma dedup_strings_NoDup (l : list string) : NoDup (dedup_strings l).
Proof.
  induction l as [|s l IH]; simpl; constructor.
  - intros Hin. apply list_elem_of_In in Hin. apply filter_In in Hin.
    destruct Hin as [_ Hne]. now rewrite String.eqb_refl in Hne.
  - now apply NoDup_strings_filter.
Qed.

(** When the create result has a non-empty [failed] mapping, the summary is
    the "; "-joined list of the messages of its entries, each distinct
    message once: the [failures] list and the generic text are not used. *)
Theorem failure_summary_lists_each_message_once {host : Host}
    (result failed : PyDict) (failed_n : Z) :
  dict_get result "failed" = PDict failed ->
  failed <> [] ->
  exists messages,
    _summarize_create_failures (PDict result) failed_n = join "; " messages /\
    NoDup messages /\
    forall msg,
      In msg messages <->
      exists detail,
        In detail (dict_values failed) /\ msg = failed_map_message detail.
Proof.
  intros Hf Hne. unfold _summarize_create_failures. rewrite Hf.
  destruct failed as [|[k v] failed]; [contradiction|].
  exists (dedup_strings (map failed_map_message (dict_values ((k, v) :: failed)))).
  split; [reflexivity|]. split; [apply dedup_strings_NoDup|].
  intros msg. rewrite dedup_strings_In, in_map_iff. split.
  - intros (detail & <- & Hin). eauto.
  - intros (detail & Hin & ->). eauto.
Qed.

Lemma failure_summary_lists_each_message_once_witness :
  let failed :=
    [("0", PDict [("message", PStr "invalid collection key")]);
     ("1", PDict [("error", PStr "invalid collection key")])] in
  dict_get [("failed", PDict failed)] "failed" = PDict failed /\
  failed <> [] /\
  @_summarize_create_failures demo_host (PDict [("failed", PDict failed)]) 2
  = "invalid collection key".
Proof.
  intros failed.
  assert (H1 : dict_get [("failed", PDict failed)] "failed" = PDict failed)
    by reflexivity.
  assert (H2 : failed <> []) by discriminate.
  split; [exact H1|]. split; [exact H2|].
  destruct (@failure_summary_lists_each_message_once demo_host
              [("failed", PDict failed)] failed 2 H1 H2)
    as (messages & Hsum & _ & _).
  reflexivity.
Defined.

Section ReportedFailures.

Context {host : Host} {dedup : Dedup}.
Variable self : ZoteroAdapter.
Variable collection_keys : option (list string).

(** When the create call reports failed_n > 0 and nothing raises, exactly
    one failure entry is appended for the record: its title with the
    summary of the create result. *)
Theorem reported_failure_is_recorded_with_its_summary
    (paper : PaperItem) (s : RunState) (keys : list IdentityKey) (w : World)
    (result : PyVal) (created_n skipped_n failed_n : Z) :
  paper_export_identity_keys paper = Returned keys ->
  find_matched_key keys (existing_key_set s) = None ->
  create_item self
    (_paper_to_zotero_item (today (world (machine s))) paper collection_keys)
    (world (machine s)) = (w, Returned result) ->
  _extract_create_result_counts result = (created_n, skipped_n, failed_n) ->
  0 < failed_n ->
  created_n = 0 ->
  failures (export_step self collection_keys paper s)
  = (failures s
     ++ [(title paper, _summarize_create_failures result failed_n)])%list.
Proof.
  intros Hk Hf Hc Hn Hpos Hzero.
  destruct (step_create self collection_keys _ _ _ _ _ _ _ _ Hk Hf Hc Hn)
    as (_ & _ & _ & _ & _ & Hfail).
  rewrite Hfail. subst created_n. simpl.
  apply Z.ltb_lt in Hpos. now rewrite Hpos.
Qed.

(** The index changes in a turn only when the create call of that turn
    reported created_count > 0: a skipped record, a record whose processing
    raised before or in the create call, and a record the store did not
    create all leave the index as it was. *)
Theorem index_changes_only_after_a_reported_creation
    (paper : PaperItem) (s : RunState) :
  existing_key_set (export_step self collection_keys paper s)
  <> existing_key_set s ->
  exists keys w result,
    paper_export_identity_keys paper = Returned keys /\
    find_matched_key keys (existing_key_set s) = None /\
    create_item self
      (_paper_to_zotero_item (today (world (machine s))) paper collection_keys)
      (world (machine s)) = (w, Returned result) /\
    0 < fst (fst (_extract_create_result_counts result)).
Proof.
  intros Hchg.
  destruct (step_cases self collection_keys paper s)
    as [[e Hk]|[(keys & k & Hk & Hf)|[(keys & w & e & Hk & Hf & Hc)
       |(keys & w & result & Hk & Hf & Hc)]]].
  - rewrite (step_keys_raise _ _ _ _ _ Hk) in Hchg. now elim Hchg.
  - rewrite (step_skip _ _ _ _ _ _ Hk Hf) in Hchg. now elim Hchg.
  - rewrite (step_create_raise _ _ _ _ _ _ _ Hk Hf Hc) in Hchg. now elim Hchg.
  - destruct (_extract_create_result_counts result) as [[c sk] f] eqn:Hn.
    destruct (step_create self collection_keys _ _ _ _ _ _ _ _ Hk Hf Hc Hn)
      as (_ & _ & _ & _ & Hidx & _).
    exists keys, w, result. repeat split; auto. rewrite Hn. simpl.
    destruct (0 <? c) eqn:Hpos; [now apply Z.ltb_lt|].
    rewrite Hidx in Hchg. now elim Hchg.
Qed.

End ReportedFailures.

Lemma reported_failure_is_recorded_with_its_summary_witness :
  let paper := demo_paper "Failure Detail Test" (Some "10.7777/failure-detail") None in
  let s := @initial_state demo_host ∅ demo_machine in
  0 < 1 /\
  failures
    (@export_step demo_host spec_dedup (replying_adapter failed_detail)
       (Some ["BADNAME1"]) paper s)
  = [("Failure Detail Test", "invalid collection key")].
Proof.
  intros paper s. split; [reflexivity|].
  exact (@reported_failure_is_recorded_with_its_summary demo_host spec_dedup
           (replying_adapter failed_detail) (Some ["BADNAME1"]) paper s
           [("doi", "10.7777/failure-detail")] 1%nat failed_detail 0 0 1
           eq_refl eq_refl eq_refl eq_refl eq_refl eq_refl).
Defined.

Lemma index_changes_only_after_a_reported_creation_witness :
  let paper := demo_paper "A" (Some "10.1/X") None in
  let s := @initial_state demo_host ∅ demo_machine in
  existing_key_set
    (@export_step demo_host spec_dedup (replying_adapter created_one) None
       paper s)
  <> existing_key_set s /\
  0 < fst (fst (_extract_create_result_counts created_one)).
Proof.
  intros paper s.
  assert (H : existing_key_set
                (@export_step demo_host spec_dedup
                   (replying_adapter created_one) None paper s)
              <> existing_key_set s).
  { intros Heq.
    assert (Hin : ("doi", "10.1/x")
                  ∈ existing_key_set
                      (@export_step demo_host spec_dedup
                         (replying_adapter created_one) None paper s)).
    { change (("doi", "10.1/x")
              ∈ (∅ ∪ list_to_set [("doi", "10.1/x")] : gset IdentityKey)).
      apply elem_of_union_r. apply elem_of_list_to_set. left. }
    rewrite Heq in Hin. now apply not_elem_of_empty in Hin. }
  split; [exact H|].
  destruct (@index_changes_only_after_a_reported_creation demo_host spec_dedup
              (replying_adapter created_one) None paper s H)
    as (keys & w & result & _ & _ & Hc & Hpos).
  inversion Hc; subst. exact Hpos.
Defined.

(** ** Further concrete runs *)

Lemma resolved_collection_is_absent_or_nonempty_witness :
  exists m' resolved,
    @_resolve_collection_key demo_host (replying_adapter created_one)
      (Some "   ") demo_machine = (m', Returned resolved) /\
    resolved = None.
Proof.
  destruct (@resolved_collection_is_absent_or_nonempty demo_host
              (replying_adapter created_one) (Some "   ") demo_machine)
    as (m' & resolved & Heq & Hnone & _).
  exists m', resolved. split; [exact Heq|]. apply Hnone. reflexivity.
Defined.

Lemma payload_has_no_none_value_witness :
  let zotero_item :=
    _paper_to_zotero_item "2026-01-01" (demo_paper "A" (Some "10.1/X") None)
      (Some ["866TNWZ9"]) in
  In ("DOI", PStr "10.1/X") zotero_item /\
  snd ("DOI", PStr "10.1/X") <> PNone /\
  dict_lookup zotero_item "volume" <> Some PNone.
Proof.
  intros zotero_item.
  assert (Hin : In ("DOI", PStr "10.1/X") zotero_item)
    by (right; right; right; left; reflexivity).
  destruct (payload_has_no_none_value "2026-01-01"
              (demo_paper "A" (Some "10.1/X") None) (Some ["866TNWZ9"]))
    as (_ & Hlookup & Hall).
  split; [exact Hin|]. split; [exact (Hall _ Hin)|exact (Hlookup "volume")].
Defined.

Lemma normalized_listing_is_no_longer_than_the_listing_witness :
  Forall (fun value => is_dict value = true) [PDict remote_item] /\
  exists items,
    @_normalize_item_list_result demo_host (PList [PDict remote_item])
    = Some items /\
    length items = 1%nat.
Proof.
  assert (H : Forall (fun value => is_dict value = true) [PDict remote_item])
    by (constructor; [reflexivity|constructor]).
  split; [exact H|].
  destruct (@normalized_listing_is_no_longer_than_the_listing demo_host
              [PDict remote_item]) as (items & Heq & _ & Hlen).
  exists items. split; [exact Heq|exact (Hlen H)].
Defined.
